(** * PixelConvert: the image-conversion form of [App] and its session state

    A shallow embedding of the React component [App] (its state slots, its
    event handlers and the asynchronous callbacks they register) and of the
    types of [types.ts], followed by the properties of the conversion
    pipeline.

    JavaScript numbers that hold lengths and sizes are integers here ([Z]);
    the quality scalar and the argument of [Math.round] are rationals ([Q]):
    every value the code rounds is a multiple of 1/4, which a double holds
    exactly.  Browser primitives the component calls ([getContext],
    [drawImage], [toDataURL]) are parameters of the development; the
    completion of a file read or of an image decode is an event supplied by
    the environment. *)

From Stdlib Require Import ZArith QArith Qround Lqa Ascii String.
From stdpp Require Import base option list strings pretty.

Local Open Scope Z_scope.
Local Open Scope string_scope.
Local Open Scope list_scope.

(** ** types.ts *)

Inductive ImageFormat := PNG | JPEG | WEBP.

(** The string value of each enum member. *)
Definition ImageFormat_value (fmt : ImageFormat) : string :=
  match fmt with
  | PNG => "png"
  | JPEG => "jpeg"
  | WEBP => "webp"
  end.

Definition ImageFormat_eqb (a b : ImageFormat) : bool :=
  match a, b with
  | PNG, PNG | JPEG, JPEG | WEBP, WEBP => true
  | _, _ => false
  end.

(** The DOM [File] object, as far as the component reads it. *)
Module File.
Record t := mk { name : string; size : Z; type : string }.
End File.

Module ImageState.
Record t := mk {
  file : File.t;
  previewUrl : string;
  name : string;
  size : Z;
  type : string;
  width : Z;
  height : Z
}.
End ImageState.

Module ConversionResult.
Record t := mk {
  url : string;
  format : ImageFormat;
  size : Z
}.
End ConversionResult.

(** ** JavaScript primitives *)

(** [s.startsWith(p)] *)
Definition startsWith (p s : string) : bool := String.prefix p s.

(** [s.split(sep)] for a one-character separator: the pieces between the
    occurrences of [sep]; never empty. *)
Fixpoint split (sep : ascii) (s : string) : list string :=
  match s with
  | EmptyString => [""]
  | String c s' =>
      if Ascii.eqb c sep then "" :: split sep s'
      else match split sep s' with
           | piece :: rest => String c piece :: rest
           | [] => [String c ""]
           end
  end.

(** [arr[i]] inside a template literal: a missing element prints as
    [undefined]. *)
Definition index_or_undefined (arr : list string) (i : nat) : string :=
  default "undefined" (arr !! i).

(** [arr.join(sep)] *)
Fixpoint join (sep : string) (arr : list string) : string :=
  match arr with
  | [] => ""
  | [piece] => piece
  | piece :: rest => piece +:+ sep +:+ join sep rest
  end.

(** [Math.round]: the nearest integer, a tie going up. *)
Definition Math_round (x : Q) : Z := Qfloor (x + (1 # 2)).

(** A JavaScript string's [length], as a number. *)
Definition length_of (s : string) : Z := Z.of_nat (String.length s).

(** ** Outcome of a [try] body *)

Inductive Completion (A : Type) :=
| Normal (a : A)
| Throw (error : string).
Arguments Normal {A} a.
Arguments Throw {A} error.

Definition bind {A B} (c : Completion A) (k : A -> Completion B) : Completion B :=
  match c with
  | Normal a => k a
  | Throw e => Throw e
  end.

Notation "'let?' x := c 'in' k" := (bind c (fun x => k))
  (at level 10, x name, c at level 100, k at level 200).

(** ** The component's state *)

Record AppState := mkApp {
  sourceImage : option ImageState.t;
  targetFormat : ImageFormat;
  quality : Q;
  isConverting : bool;
  result : option ConversionResult.t;
  isDragging : bool
}.

(** The initial values passed to [useState]. *)
Definition initialApp : AppState :=
  {| sourceImage := None;
     targetFormat := PNG;
     quality := 9 # 10;
     isConverting := false;
     result := None;
     isDragging := false |}.

(** An [Image] element whose [load] event has fired, and a canvas. *)
Record HTMLImageElement := mkImg {
  img_src : string;
  img_width : Z;
  img_height : Z
}.

Record Canvas := mkCanvas {
  canvas_width : Z;
  canvas_height : Z;
  canvas_drawn : list (HTMLImageElement * Z * Z)
}.

(** What an asynchronous operation is waiting for, with the values its
    callback closes over. *)
Inductive Task :=
| ReaderTask (file : File.t)
    (* reader.readAsDataURL(file), reader.onload set (handleFile) *)
| SourceDecodeTask (file : File.t) (dataUrl : string)
    (* img.src assigned, img.onload set (handleFile) *)
| ConvertDecodeTask (previewUrl : string) (fmt : ImageFormat) (q : Q).
    (* convertImage suspended at its await, holding the targetFormat and
       quality of the render it was called from *)

(** The session: React state, the file input behind [fileInputRef] (its
    [value], [None] while the input is not mounted), what has been shown
    with [alert], what has been logged with [console.error], and the
    callbacks still to be called. *)
Record World := mkWorld {
  state : AppState;
  fileInputRef : option string;
  alerts : list string;
  console : list string;
  tasks : list Task
}.

Definition initial : World :=
  {| state := initialApp;
     fileInputRef := Some "";
     alerts := [];
     console := [];
     tasks := [] |}.

Definition Handler := World -> World.

Definition seq (f g : Handler) : Handler := fun w => g (f w).
Notation "f >> g" := (seq f g) (at level 60, right associativity).

Definition skip : Handler := fun w => w.

Definition update (f : AppState -> AppState) : Handler := fun w =>
  {| state := f (state w);
     fileInputRef := fileInputRef w;
     alerts := alerts w;
     console := console w;
     tasks := tasks w |}.

Definition setSourceImage (v : option ImageState.t) : Handler :=
  update (fun st => mkApp v (targetFormat st) (quality st) (isConverting st)
                          (result st) (isDragging st)).

Definition setTargetFormat (v : ImageFormat) : Handler :=
  update (fun st => mkApp (sourceImage st) v (quality st) (isConverting st)
                          (result st) (isDragging st)).

Definition setQuality (v : Q) : Handler :=
  update (fun st => mkApp (sourceImage st) (targetFormat st) v (isConverting st)
                          (result st) (isDragging st)).

Definition setIsConverting (v : bool) : Handler :=
  update (fun st => mkApp (sourceImage st) (targetFormat st) (quality st) v
                          (result st) (isDragging st)).

Definition setResult (v : option ConversionResult.t) : Handler :=
  update (fun st => mkApp (sourceImage st) (targetFormat st) (quality st)
                          (isConverting st) v (isDragging st)).

Definition setIsDragging (v : bool) : Handler :=
  update (fun st => mkApp (sourceImage st) (targetFormat st) (quality st)
                          (isConverting st) (result st) v).

Definition alert (msg : string) : Handler := fun w =>
  mkWorld (state w) (fileInputRef w) (alerts w ++ [msg]) (console w) (tasks w).

Definition console_error (e : string) : Handler := fun w =>
  mkWorld (state w) (fileInputRef w) (alerts w) (console w ++ [e]) (tasks w).

Definition spawn (t : Task) : Handler := fun w =>
  mkWorld (state w) (fileInputRef w) (alerts w) (console w) (tasks w ++ [t]).

Definition settle (i : nat) : Handler := fun w =>
  mkWorld (state w) (fileInputRef w) (alerts w) (console w) (delete i (tasks w)).

Definition set_input_value (v : option string) : Handler := fun w =>
  mkWorld (state w) v (alerts w) (console w) (tasks w).

(** ** Conversions in flight *)

Definition is_conversion (t : Task) : bool :=
  match t with
  | ConvertDecodeTask _ _ _ => true
  | _ => false
  end.

(** How many calls of [convertImage] are suspended at their [await]. *)
Fixpoint conversions_among (ts : list Task) : nat :=
  match ts with
  | [] => 0
  | t :: rest => (if is_conversion t then 1 else 0) + conversions_among rest
  end.

Definition in_flight (w : World) : nat := conversions_among (tasks w).

(** ** What is on screen

    The JSX of [App], reduced to the controls whose presence depends on the
    state: the drop zone with its file input when there is no source, the
    settings panel and the preview otherwise. *)

Record View := mkView {
  dropZone : bool;              (* the drop zone and its file input *)
  formatButtons : bool;
  qualityControl : bool;        (* the range input *)
  convertButton : option bool;  (* its disabled attribute, when rendered *)
  resetButton : bool;
  downloadLink : option (string * string)  (* href and download *)
}.

(** The [download] attribute of the link. *)
Definition download_name (src : ImageState.t) (r : ConversionResult.t) : string :=
  "converted-" +:+ index_or_undefined (split "." (ImageState.name src)) 0
    +:+ "." +:+ ImageFormat_value (ConversionResult.format r).

Definition render (st : AppState) : View :=
  match sourceImage st with
  | None =>
      {| dropZone := true; formatButtons := false; qualityControl := false;
         convertButton := None; resetButton := false; downloadLink := None |}
  | Some src =>
      {| dropZone := false;
         formatButtons := true;
         qualityControl :=
           ImageFormat_eqb (targetFormat st) JPEG || ImageFormat_eqb (targetFormat st) WEBP;
         convertButton := Some (isConverting st);
         resetButton := true;
         downloadLink :=
           match result st with
           | Some r => Some (ConversionResult.url r, download_name src r)
           | None => None
           end |}
  end.

(** After a handler has run React renders again: the file input exists
    exactly while there is no source, and a newly mounted input is empty. *)
Definition rerender : Handler := fun w =>
  match sourceImage (state w) with
  | Some _ => set_input_value None w
  | None =>
      match fileInputRef w with
      | Some _ => w
      | None => set_input_value (Some "") w
      end
  end.

(** ** Handlers that do not touch the canvas *)

Definition invalid_file_notice : string :=
  "يرجى اختيار ملف صورة صالح (PNG, JPG, WEBP)".

Definition conversion_failed_notice : string :=
  "حدث خطأ أثناء تحويل الصورة".

Definition handleFile (file : File.t) : Handler := fun w =>
  if negb (startsWith "image/" (File.type file)) then
    alert invalid_file_notice w
  else
    spawn (ReaderTask file) w.

(** [reader.onload]: a new [Image] is given the data URL as its [src]. *)
Definition reader_onload (file : File.t) (dataUrl : string) : Handler :=
  spawn (SourceDecodeTask file dataUrl).

(** [img.onload] of [handleFile]. *)
Definition source_onload (file : File.t) (dataUrl : string)
    (img : HTMLImageElement) : Handler :=
  setSourceImage (Some {|
    ImageState.file := file;
    ImageState.previewUrl := dataUrl;
    ImageState.name := File.name file;
    ImageState.size := File.size file;
    ImageState.type := File.type file;
    ImageState.width := img_width img;
    ImageState.height := img_height img |}) >>
  setResult None.

Definition onFileChange (files : list File.t) : Handler :=
  match files with
  | file :: _ => handleFile file
  | [] => skip
  end.

Definition onDrop (files : list File.t) : Handler :=
  setIsDragging false >>
  match files with
  | file :: _ => handleFile file
  | [] => skip
  end.

Definition onDragOver : Handler := setIsDragging true.

Definition onDragLeave : Handler := setIsDragging false.

Definition reset : Handler :=
  setSourceImage None >>
  setResult None >>
  setIsConverting false >>
  (fun w => match fileInputRef w with
            | Some _ => set_input_value (Some "") w
            | None => w
            end).

(** [convertImage] up to its [await]. *)
Definition convertImage : Handler := fun w =>
  match sourceImage (state w) with
  | None => w
  | Some src =>
      (setIsConverting true >>
       spawn (ConvertDecodeTask (ImageState.previewUrl src)
                (targetFormat (state w)) (quality (state w)))) w
  end.

(** The value the browser gives the file input before [change] fires. *)
Definition chosen_value (files : list File.t) : string :=
  match files with
  | file :: _ => "C:\fakepath\" +:+ File.name file
  | [] => ""
  end.

(** ** Events *)

Inductive Event :=
| InputChange (files : list File.t)
| Drop (files : list File.t)
| DragOver
| DragLeave
| ClickFormat (fmt : ImageFormat)
| ChangeQuality (value : Q)
| ClickConvert
| ClickReset
| ReaderLoad (i : nat) (dataUrl : string)
| ReaderError (i : nat)
| ImageLoad (i : nat) (width height : Z)
| ImageError (i : nat).

(** The reset button is clicked while a conversion is in flight. *)
Definition resets_pending_conversion (w : World) (e : Event) : bool :=
  match e with
  | ClickReset => negb (Nat.eqb (in_flight w) 0)
  | _ => false
  end.

Section Platform.

(** The browser's canvas: [getContext('2d')] ([false] for [null]),
    [drawImage] and [toDataURL], each of which may throw. *)
Variable getContext : Canvas -> string -> bool.
Variable drawImage : Canvas -> HTMLImageElement -> Z -> Z -> Completion Canvas.
Variable toDataURL : Canvas -> string -> Q -> Completion string.

(** The [try] block of [convertImage] from the line after the [await]. *)
Definition convertImage_try (img : HTMLImageElement)
    (targetFormat : ImageFormat) (quality : Q) : Completion ConversionResult.t :=
  let canvas := mkCanvas (img_width img) (img_height img) [] in
  let? ctx := (if getContext canvas "2d" then Normal canvas
               else Throw "Canvas context error") in
  let? painted := drawImage ctx img 0 0 in
  let mimeType := "image/" +:+ ImageFormat_value targetFormat in
  let? dataUrl := toDataURL painted mimeType quality in
  let head := length_of ("data:" +:+ mimeType +:+ ";base64,") in
  let fileSize := Math_round (inject_Z (length_of dataUrl - head) * 3 / 4) in
  Normal {| ConversionResult.url := dataUrl;
            ConversionResult.format := targetFormat;
            ConversionResult.size := fileSize |}.

(** [convertImage] from its [await] on: [try], [catch], [finally]. *)
Definition convertImage_resume (img : HTMLImageElement)
    (targetFormat : ImageFormat) (quality : Q) : Handler :=
  match convertImage_try img targetFormat quality with
  | Normal r => setResult (Some r)
  | Throw error => console_error error >> alert conversion_failed_notice
  end >>
  setIsConverting false.

(** One event.  A user event reaches its handler only if the control is on
    screen (and, for the convert button, not disabled); a completion event
    reaches the callback of the task it names.  Neither [handleFile] nor
    [convertImage] sets [onerror]: a failed read or decode calls nothing. *)
Definition dispatch (e : Event) : Handler := fun w =>
  let view := render (state w) in
  match e with
  | InputChange files =>
      if dropZone view
      then (set_input_value (Some (chosen_value files)) >> onFileChange files) w
      else w
  | Drop files => if dropZone view then onDrop files w else w
  | DragOver => if dropZone view then onDragOver w else w
  | DragLeave => if dropZone view then onDragLeave w else w
  | ClickFormat fmt => if formatButtons view then setTargetFormat fmt w else w
  | ChangeQuality value => if qualityControl view then setQuality value w else w
  | ClickConvert =>
      match convertButton view with
      | Some false => convertImage w
      | _ => w
      end
  | ClickReset => if resetButton view then reset w else w
  | ReaderLoad i dataUrl =>
      match tasks w !! i with
      | Some (ReaderTask file) => (settle i >> reader_onload file dataUrl) w
      | _ => w
      end
  | ReaderError i =>
      match tasks w !! i with
      | Some (ReaderTask _) => settle i w
      | _ => w
      end
  | ImageLoad i width height =>
      match tasks w !! i with
      | Some (SourceDecodeTask file dataUrl) =>
          (settle i >> source_onload file dataUrl (mkImg dataUrl width height)) w
      | Some (ConvertDecodeTask previewUrl fmt q) =>
          (settle i >> convertImage_resume (mkImg previewUrl width height) fmt q) w
      | _ => w
      end
  | ImageError i =>
      match tasks w !! i with
      | Some (SourceDecodeTask _ _) | Some (ConvertDecodeTask _ _ _) => settle i w
      | _ => w
      end
  end.

Definition step (w : World) (e : Event) : World := rerender (dispatch e w).

Definition run (w : World) (trace : list Event) : World := foldl step w trace.

Definition reachable (w : World) : Prop := exists trace, run initial trace = w.

(** No event of the trace, run from [w], is a click on reset while a
    conversion is in flight. *)
Fixpoint undisturbed (w : World) (trace : list Event) : bool :=
  match trace with
  | [] => true
  | e :: rest =>
      negb (resets_pending_conversion w e) && undisturbed (step w e) rest
  end.

End Platform.

(** ** A canvas to run the component on

    A stand-in for the browser: the context is always available, painting
    records the image, and the encoder answers with a data URL for the
    requested type whose payload depends on the quality only for the lossy
    types.  A PNG of this encoder has 978 payload characters. *)
Module Demo.

Fixpoint payload (n : nat) : string :=
  match n with
  | O => ""
  | S n' => String "A" (payload n')
  end.

Definition getContext (c : Canvas) (contextId : string) : bool := true.

Definition drawImage (c : Canvas) (img : HTMLImageElement) (dx dy : Z)
    : Completion Canvas :=
  Normal (mkCanvas (canvas_width c) (canvas_height c)
            (canvas_drawn c ++ [(img, dx, dy)])).

Definition toDataURL (c : Canvas) (type : string) (quality : Q)
    : Completion string :=
  if String.eqb type "image/png"
  then Normal ("data:" +:+ type +:+ ";base64," +:+ payload 978)
  else Normal ("data:" +:+ type +:+ ";base64,"
               +:+ payload (Z.to_nat (Qfloor (quality * 100)))).

Definition step := step getContext drawImage toDataURL.
Definition run := run getContext drawImage toDataURL.

Definition photo : File.t :=
  {| File.name := "my.photo.png"; File.size := 2000; File.type := "image/png" |}.

Definition notes : File.t :=
  {| File.name := "notes.txt"; File.size := 12; File.type := "text/plain" |}.

Definition photo_url : string := "data:image/png;base64,iVBORw0KGgo=".

(** Drop the photo and let the read and the decode finish. *)
Definition load_photo : list Event :=
  [Drop [photo]; ReaderLoad 0 photo_url; ImageLoad 0 100 50].

Definition loaded : World := run initial load_photo.

(** The convert button has been clicked and the decode is pending. *)
Definition converting : World := run loaded [ClickConvert].

Definition png_result : ConversionResult.t :=
  {| ConversionResult.url := "data:image/png;base64," +:+ payload 978;
     ConversionResult.format := PNG;
     ConversionResult.size := 734 |}.

(** The conversion has completed. *)
Definition converted : World := run converting [ImageLoad 0 100 50].

(** The decode of the conversion has failed instead. *)
Definition hung : World := run converting [ImageError 0].

(** JPEG is chosen for the loaded photo, then reset is clicked. *)
Definition jpeg_then_reset : World := run loaded [ClickFormat JPEG; ClickReset].

Definition icon : File.t :=
  {| File.name := "icon.webp"; File.size := 300; File.type := "image/webp" |}.

Definition icon_url : string := "data:image/webp;base64,UklGRg==".

(** Reset is clicked while the conversion of the photo is in flight, and
    the icon is dropped and loaded before that conversion's decode
    completes. *)
Definition reloaded_during_conversion : World :=
  run converting [ClickReset; Drop [icon]; ReaderLoad 1 icon_url; ImageLoad 1 16 16].

Definition photo_source : ImageState.t :=
  {| ImageState.file := photo;
     ImageState.previewUrl := photo_url;
     ImageState.name := "my.photo.png";
     ImageState.size := 2000;
     ImageState.type := "image/png";
     ImageState.width := 100;
     ImageState.height := 50 |}.

Definition icon_source : ImageState.t :=
  {| ImageState.file := icon;
     ImageState.previewUrl := icon_url;
     ImageState.name := "icon.webp";
     ImageState.size := 300;
     ImageState.type := "image/webp";
     ImageState.width := 16;
     ImageState.height := 16 |}.



(** What this encoder gives for JPEG at quality 1: 100 payload characters. *)
Definition jpeg_result : ConversionResult.t :=
  {| ConversionResult.url := "data:image/jpeg;base64," +:+ payload 100;
     ConversionResult.format := JPEG;
     ConversionResult.size := 75 |}.

End Demo.

(** ** Canvases that answer differently

    Two more stand-ins for the browser.  [Fallback] does not encode the
    requested type and answers every request with a PNG data URL, as a
    browser does for a type it does not support.  [Scaled] lets the quality
    decide the payload for every type, PNG included. *)
Module Fallback.

Definition getContext (c : Canvas) (contextId : string) : bool := true.

Definition drawImage (c : Canvas) (img : HTMLImageElement) (dx dy : Z)
    : Completion Canvas :=
  Normal (mkCanvas (canvas_width c) (canvas_height c)
            (canvas_drawn c ++ [(img, dx, dy)])).

Definition toDataURL (c : Canvas) (type : string) (quality : Q)
    : Completion string :=
  Normal "data:image/png;base64,AAAA".

Definition run := run getContext drawImage toDataURL.

End Fallback.

Module Scaled.

Definition getContext (c : Canvas) (contextId : string) : bool := true.

Definition drawImage (c : Canvas) (img : HTMLImageElement) (dx dy : Z)
    : Completion Canvas :=
  Normal (mkCanvas (canvas_width c) (canvas_height c)
            (canvas_drawn c ++ [(img, dx, dy)])).

Definition toDataURL (c : Canvas) (type : string) (quality : Q)
    : Completion string :=
  Normal ("data:" +:+ type +:+ ";base64,"
          +:+ Demo.payload (Z.to_nat (Qfloor (quality * 100)))).

Definition run := run getContext drawImage toDataURL.

End Scaled.

(** ** Size labels

    [formatSize] is applied to [sourceImage.size] and to [result.size],
    which are integers.  For an integer below 1024^4 the doubles of the
    function hold exact values: the floor of the quotient of the two
    logarithms is the integer logarithm to base 1024, the division is by a
    power of two, and [toFixed] rounds the exact quotient.  The definition
    below is that exact computation; the logarithm of a negative number is
    NaN, which every later step passes on. *)

Definition sizes : list string := ["Bytes"; "KB"; "MB"].

(** [x.toFixed(2)] read back by [parseFloat], counted in hundredths: the
    nearest number of hundredths, the larger one at a tie. *)
Definition toFixed2 (x : Q) : Z := Qfloor (x * 100 + (1 # 2)).

(** A number of [h] hundredths turned into a string by [+]: digits after
    the point only as far as they are not zero. *)
Definition hundredths_to_string (h : Z) : string :=
  let whole := pretty (h / 100) in
  let cents := h mod 100 in
  if (cents =? 0)%Z then whole
  else if (cents mod 10 =? 0)%Z then whole +:+ "." +:+ pretty (cents / 10)
  else if (cents <? 10)%Z then whole +:+ ".0" +:+ pretty cents
  else whole +:+ "." +:+ pretty cents.

Definition formatSize (bytes : Z) : string :=
  if (bytes =? 0)%Z then "0 Bytes"
  else if (bytes <? 0)%Z then "NaN undefined"
  else
    let k := 1024 in
    let i := Z.log2 bytes / Z.log2 k in
    hundredths_to_string (toFixed2 (inject_Z bytes / inject_Z (k ^ i)))
      +:+ " " +:+ index_or_undefined sizes (Z.to_nat i).

(** ** Decodes that fail *)

(** The event is the [error] of an image a conversion is waiting for. *)
Definition fails_conversion_decode (w : World) (e : Event) : bool :=
  match e with
  | ImageError i =>
      match tasks w !! i with
      | Some t => is_conversion t
      | None => false
      end
  | _ => false
  end.

Section Runs.

Variable getContext : Canvas -> string -> bool.
Variable drawImage : Canvas -> HTMLImageElement -> Z -> Z -> Completion Canvas.
Variable toDataURL : Canvas -> string -> Q -> Completion string.

(** No event of the trace, run from [w], is the failed decode of a
    conversion. *)
Fixpoint decodes_complete (w : World) (trace : list Event) : bool :=
  match trace with
  | [] => true
  | e :: rest =>
      negb (fails_conversion_decode w e)
      && decodes_complete (step getContext drawImage toDataURL w e) rest
  end.

End Runs.

(** ** Notions the properties are stated with *)

(** The header the estimate subtracts: the one for the requested type. *)
Definition data_url_header (fmt : ImageFormat) : string :=
  "data:image/" +:+ ImageFormat_value fmt +:+ ";base64,".

(** The estimate in the words of the specification:
    [round((L - H) * 3 / 4)]. *)
Definition estimatedSize (L H : Z) : Z :=
  Math_round (inject_Z (L - H) * 3 / 4).

(** [n] is the integer nearest to [x], the upper one at a tie. *)
Definition nearest_integer (x : Q) (n : Z) : Prop :=
  (inject_Z n - (1 # 2) <= x)%Q /\ (x < inject_Z n + (1 # 2))%Q.

(** The base name in the words of the specification: the name with its
    final extension removed. *)
Definition without_final_extension (name : string) : string :=
  match split "." name with
  | [] | [_] => name
  | pieces => join "." (removelast pieces)
  end.

(** The file name the specification gives the download. *)
Definition spec_download_name (src : ImageState.t) (r : ConversionResult.t) : string :=
  "converted-" +:+ without_final_extension (ImageState.name src)
    +:+ "." +:+ ImageFormat_value (ConversionResult.format r).

(** The length of a data URL's own header: its characters up to and
    including the first comma. *)
Fixpoint through_first_comma (s : string) : nat :=
  match s with
  | EmptyString => 0
  | String c s' =>
      if Ascii.eqb c "," then 1 else S (through_first_comma s')
  end.

Definition own_header_length (dataUrl : string) : Z :=
  Z.of_nat (through_first_comma dataUrl).


(** A world as React leaves it after a render. *)
Definition rendered (w : World) : Prop := rerender w = w.

(** The state slots a conversion leaves alone. *)
Definition same_but_result_and_flag (a b : AppState) : Prop :=
  sourceImage b = sourceImage a /\
  targetFormat b = targetFormat a /\
  quality b = quality a /\
  isDragging b = isDragging a.

(** At most one conversion is in flight, and the flag is set while one is. *)
Definition one_at_a_time (w : World) : Prop :=
  (in_flight w <= 1)%nat /\
  (in_flight w = 1%nat -> isConverting (state w) = true).

(** The three facts that hold along a run in which reset is not clicked
    while a conversion is in flight. *)
Definition settled (w : World) : Prop :=
  one_at_a_time w /\
  (isConverting (state w) = true -> sourceImage (state w) <> None) /\
  (result (state w) <> None -> sourceImage (state w) <> None).

(** Unfold the handlers down to the record they build. *)
Ltac unfold_handlers :=
  unfold reset, onDrop, onFileChange, onDragOver, onDragLeave, handleFile,
    reader_onload, source_onload, convertImage, seq, skip,
    setSourceImage, setTargetFormat, setQuality, setIsConverting, setResult,
    setIsDragging, update, alert, console_error, spawn, settle,
    set_input_value;
  cbn [state fileInputRef alerts console tasks
       sourceImage targetFormat quality isConverting result isDragging].

(** * Properties *)

(** ** Rounding and the size estimate *)

Lemma Math_round_nearest (x : Q) : nearest_integer x (Math_round x).
Proof.
  unfold nearest_integer, Math_round.
  pose proof (Qfloor_le (x + (1 # 2))) as Hlo.
  pose proof (Qlt_floor (x + (1 # 2))) as Hhi.
  rewrite inject_Z_plus in Hhi. change (inject_Z 1) with 1%Q in Hhi.
  set (n := inject_Z (Qfloor (x + (1 # 2)))) in *.
  split; lra.
Qed.

(** ... and it is the only one. *)
Lemma nearest_integer_unique (x : Q) (n m : Z) :
  nearest_integer x n -> nearest_integer x m -> n = m.
Proof.
  intros [Hn_lo Hn_hi] [Hm_lo Hm_hi].
  assert (Hnm : (inject_Z n < inject_Z (m + 1))%Q).
  { rewrite inject_Z_plus. change (inject_Z 1) with 1%Q. lra. }
  assert (Hmn : (inject_Z m < inject_Z (n + 1))%Q).
  { rewrite inject_Z_plus. change (inject_Z 1) with 1%Q. lra. }
  rewrite <- Zlt_Qlt in Hnm, Hmn. lia.
Qed.

Lemma Math_round_quarters (n : Z) :
  Math_round (inject_Z n * 3 / 4) = (3 * n + 2) / 4.
Proof.
  unfold Math_round, Qfloor, Qplus, Qdiv, Qmult, Qinv. simpl.
  change (Z.pos (1 * 1 * 4 * 2)) with (2 * 4).
  change (Z.pos (1 * 1 * 4)) with 4.
  replace (n * 3 * 1 * 2 + 1 * 4) with (2 * (3 * n + 2)) by lia.
  apply Z.div_mul_cancel_l; lia.
Qed.

Lemma header_length (fmt : ImageFormat) :
  length_of (data_url_header fmt) =
  match fmt with PNG => 22 | JPEG => 23 | WEBP => 23 end.
Proof. destruct fmt; reflexivity. Qed.

(** ** The download name *)

Lemma split_nonempty sep s : split sep s <> [].
Proof.
  destruct s as [|c s]; simpl; [discriminate|].
  destruct (Ascii.eqb c sep); [discriminate|].
  destruct (split sep s); discriminate.
Qed.

Lemma join_cons_nonempty sep piece rest :
  rest <> [] -> join sep (piece :: rest) = piece +:+ sep +:+ join sep rest.
Proof. destruct rest; [congruence|reflexivity]. Qed.

Lemma join_String sep c piece rest :
  join sep (String c piece :: rest) = String c (join sep (piece :: rest)).
Proof. destruct rest; reflexivity. Qed.

(** Joining the pieces with the separator gives the string back. *)
Lemma join_split (s : string) : join "." (split "." s) = s.
Proof.
  induction s as [|c s IH]; [reflexivity|]. simpl.
  destruct (Ascii.eqb c ".") eqn:Hc.
  - apply Ascii.eqb_eq in Hc. subst c.
    rewrite join_cons_nonempty by apply split_nonempty.
    rewrite IH. reflexivity.
  - destruct (split "." s) as [|piece rest] eqn:Hsplit.
    + exfalso. exact (split_nonempty _ _ Hsplit).
    + rewrite join_String, IH. reflexivity.
Qed.

(** Where the two names agree: a name with at most one dot. *)
Lemma download_name_one_dot src r :
  (length (split "." (ImageState.name src)) <= 2)%nat ->
  download_name src r = spec_download_name src r.
Proof.
  intros Hlen. unfold download_name, spec_download_name, without_final_extension.
  pose proof (join_split (ImageState.name src)) as Hjoin.
  pose proof (split_nonempty "." (ImageState.name src)) as Hne.
  destruct (split "." (ImageState.name src)) as [|a [|b [|c rest]]];
    simpl in *; try lia.
  - congruence.
  - rewrite <- Hjoin. reflexivity.
  - reflexivity.
Qed.

Lemma download_extension src r :
  exists base, download_name src r = "converted-" +:+ base +:+ "." +:+
                 ImageFormat_value (ConversionResult.format r) /\
    (ImageFormat_value (ConversionResult.format r) = "png" \/
     ImageFormat_value (ConversionResult.format r) = "jpeg" \/
     ImageFormat_value (ConversionResult.format r) = "webp").
Proof.
  eexists. split; [reflexivity|].
  destruct (ConversionResult.format r); auto.
Qed.

Section PlatformFacts.

Variable getContext : Canvas -> string -> bool.
Variable drawImage : Canvas -> HTMLImageElement -> Z -> Z -> Completion Canvas.
Variable toDataURL : Canvas -> string -> Q -> Completion string.

Local Abbreviation convertImage_try := (convertImage_try getContext drawImage toDataURL).
Local Abbreviation convertImage_resume := (convertImage_resume getContext drawImage toDataURL).
Local Abbreviation dispatch := (dispatch getContext drawImage toDataURL).
Local Abbreviation step := (step getContext drawImage toDataURL).
Local Abbreviation run := (run getContext drawImage toDataURL).

(** What a successful [try] block returns. *)
Lemma convertImage_try_Normal img fmt q r :
  convertImage_try img fmt q = Normal r ->
  ConversionResult.format r = fmt /\
  ConversionResult.size r =
    estimatedSize (length_of (ConversionResult.url r))
                  (length_of (data_url_header fmt)).
Proof.
  unfold convertImage_try, bind. intros Htry.
  destruct (getContext _ _); [|discriminate].
  destruct (drawImage _ _ _ _) as [painted|]; [|discriminate].
  destruct (toDataURL _ _ _) as [dataUrl|]; [|discriminate].
  injection Htry as <-. simpl. split; [reflexivity|].
  unfold estimatedSize. destruct fmt; reflexivity.
Qed.

(** What the continuation does with each outcome of the [try] block. *)
Lemma convertImage_resume_Normal img fmt q r w :
  convertImage_try img fmt q = Normal r ->
  convertImage_resume img fmt q w = (setResult (Some r) >> setIsConverting false) w.
Proof. unfold convertImage_resume. intros ->. reflexivity. Qed.

Lemma convertImage_resume_Throw img fmt q error w :
  convertImage_try img fmt q = Throw error ->
  convertImage_resume img fmt q w =
  (console_error error >> alert conversion_failed_notice >> setIsConverting false) w.
Proof. unfold convertImage_resume. intros ->. reflexivity. Qed.

(** ** Rendering again changes nothing but the file input *)

Lemma rerender_state w : state (rerender w) = state w.
Proof. unfold rerender. repeat case_match; reflexivity. Qed.

Lemma rerender_tasks w : tasks (rerender w) = tasks w.
Proof. unfold rerender. repeat case_match; reflexivity. Qed.

Lemma rerender_alerts w : alerts (rerender w) = alerts w.
Proof. unfold rerender. repeat case_match; reflexivity. Qed.

Lemma rerender_console w : console (rerender w) = console w.
Proof. unfold rerender. repeat case_match; reflexivity. Qed.

Lemma rerender_idempotent w : rerender (rerender w) = rerender w.
Proof.
  unfold rerender.
  destruct (sourceImage (state w)) eqn:Hsrc; simpl; rewrite ?Hsrc; simpl.
  - reflexivity.
  - destruct (fileInputRef w) eqn:Href; simpl; rewrite ?Hsrc, ?Href; reflexivity.
Qed.

Lemma initial_rendered : rendered initial.
Proof. reflexivity. Qed.

Lemma step_rendered w e : rendered (step w e).
Proof. apply rerender_idempotent. Qed.

Lemma run_rendered trace : forall w, rendered w -> rendered (run w trace).
Proof.
  induction trace as [|e trace IH]; intros w Hw; [exact Hw|].
  apply IH, step_rendered.
Qed.

Lemma reachable_rendered w : reachable getContext drawImage toDataURL w -> rendered w.
Proof. intros [trace <-]. apply run_rendered, initial_rendered. Qed.

(** ** Loading a source *)

(** C3. A candidate file whose declared type does not start with
    [image/] is rejected with the notice and nothing else happens: the
    state, the file input and the pending callbacks are what they were, so
    no SourceImage is created now or later, an existing one is unaltered,
    and the ConversionResult and the in-flight flag are unchanged; the same
    holds when the file arrives through the drop zone or the file input. *)
Theorem non_image_file_rejected (w : World) (file : File.t) :
  startsWith "image/" (File.type file) = false ->
  handleFile file w = alert invalid_file_notice w /\
  state (handleFile file w) = state w /\
  fileInputRef (handleFile file w) = fileInputRef w /\
  tasks (handleFile file w) = tasks w /\
  alerts (handleFile file w) = alerts w ++ [invalid_file_notice] /\
  forall (others : list File.t) (e : Event),
    e = Drop (file :: others) \/ e = InputChange (file :: others) ->
    sourceImage (state (step w e)) = sourceImage (state w) /\
    result (state (step w e)) = result (state w) /\
    isConverting (state (step w e)) = isConverting (state w) /\
    tasks (step w e) = tasks w.
Proof.
  intros Htype.
  assert (Hreject : handleFile file w = alert invalid_file_notice w).
  { unfold handleFile. rewrite Htype. reflexivity. }
  rewrite Hreject. repeat split; try reflexivity.
  all: destruct H as [-> | ->]; unfold step;
    rewrite ?rerender_state, ?rerender_tasks;
    unfold dispatch, render, onDrop, onFileChange, seq, handleFile;
    destruct (sourceImage (state w)) eqn:Hsrc;
    cbn -[startsWith]; rewrite ?Htype; cbn; rewrite ?Hsrc; reflexivity.
Qed.

(** C8. Loading a valid source: [handleFile] only registers the read and
    the completion of the read only registers the decode, neither touching
    the state; when the decode completes the SourceImage is replaced by the
    new file's and any ConversionResult is cleared, the other state slots
    and the other pending callbacks being kept. *)
Theorem new_source_clears_result (file : File.t) :
  startsWith "image/" (File.type file) = true ->
  (forall w,
     state (handleFile file w) = state w /\
     alerts (handleFile file w) = alerts w /\
     fileInputRef (handleFile file w) = fileInputRef w /\
     tasks (handleFile file w) = tasks w ++ [ReaderTask file]) /\
  (forall w i dataUrl,
     tasks w !! i = Some (ReaderTask file) ->
     state (step w (ReaderLoad i dataUrl)) = state w /\
     alerts (step w (ReaderLoad i dataUrl)) = alerts w /\
     tasks (step w (ReaderLoad i dataUrl))
       = delete i (tasks w) ++ [SourceDecodeTask file dataUrl]) /\
  (forall w i dataUrl width height,
     tasks w !! i = Some (SourceDecodeTask file dataUrl) ->
     let w' := step w (ImageLoad i width height) in
     sourceImage (state w') = Some {|
       ImageState.file := file;
       ImageState.previewUrl := dataUrl;
       ImageState.name := File.name file;
       ImageState.size := File.size file;
       ImageState.type := File.type file;
       ImageState.width := width;
       ImageState.height := height |} /\
     result (state w') = None /\
     targetFormat (state w') = targetFormat (state w) /\
     quality (state w') = quality (state w) /\
     isConverting (state w') = isConverting (state w) /\
     isDragging (state w') = isDragging (state w) /\
     alerts w' = alerts w /\
     tasks w' = delete i (tasks w)).
Proof.
  intros Htype. split; [|split].
  - intros w. unfold handleFile. rewrite Htype. simpl. repeat split.
  - intros w i dataUrl Htask. unfold step.
    rewrite rerender_state, rerender_alerts, rerender_tasks.
    unfold dispatch. rewrite Htask. repeat split.
  - intros w i dataUrl width height Htask w'. subst w'. unfold step.
    rewrite rerender_state, rerender_alerts, rerender_tasks.
    unfold dispatch. rewrite Htask. repeat split.
Qed.

(** ** Converting *)

(** C10. With no SourceImage loaded [convertImage] returns at once: the
    state, the in-flight flag, the ConversionResult, the notices, the log
    and the pending callbacks are all what they were; the convert button is
    not on screen then, and a click event changes nothing either. *)
Theorem convert_without_source_is_noop (w : World) :
  sourceImage (state w) = None ->
  convertImage w = w /\
  convertButton (render (state w)) = None /\
  dispatch ClickConvert w = w /\
  (rendered w -> step w ClickConvert = w).
Proof.
  intros Hsrc. unfold step, dispatch, render, convertImage. rewrite Hsrc. simpl.
  repeat split. intros Hw. exact Hw.
Qed.

(** C9. Invoking convert never changes the SourceImage, whatever the
    source, the target format and the quality: the click sets the in-flight
    flag and nothing else; when the decode completes a success sets the
    ConversionResult and clears the flag, a failure clears the flag and
    leaves the earlier ConversionResult; a decode that fails changes
    nothing.  Target format, quality and drag flag are kept throughout. *)
Theorem convert_preserves_source (w : World) :
  same_but_result_and_flag (state w) (state (convertImage w)) /\
  result (state (convertImage w)) = result (state w) /\
  same_but_result_and_flag (state w) (state (step w ClickConvert)) /\
  result (state (step w ClickConvert)) = result (state w) /\
  (forall img fmt q,
     let w' := convertImage_resume img fmt q w in
     same_but_result_and_flag (state w) (state w') /\
     isConverting (state w') = false /\
     match convertImage_try img fmt q with
     | Normal r => result (state w') = Some r
     | Throw _ => result (state w') = result (state w)
     end) /\
  (forall i previewUrl fmt q width height,
     tasks w !! i = Some (ConvertDecodeTask previewUrl fmt q) ->
     same_but_result_and_flag (state w) (state (step w (ImageLoad i width height))) /\
     state (step w (ImageError i)) = state w).
Proof.
  unfold same_but_result_and_flag.
  assert (Hclick : forall w0,
    (sourceImage (state (convertImage w0)) = sourceImage (state w0) /\
     targetFormat (state (convertImage w0)) = targetFormat (state w0) /\
     quality (state (convertImage w0)) = quality (state w0) /\
     isDragging (state (convertImage w0)) = isDragging (state w0)) /\
    result (state (convertImage w0)) = result (state w0)).
  { intros w0. unfold convertImage. destruct (sourceImage (state w0)) eqn:Hsrc.
    - simpl. rewrite Hsrc. repeat split.
    - rewrite Hsrc. repeat split. }
  assert (Hresume : forall w0 img fmt q,
    (sourceImage (state (convertImage_resume img fmt q w0)) = sourceImage (state w0) /\
     targetFormat (state (convertImage_resume img fmt q w0)) = targetFormat (state w0) /\
     quality (state (convertImage_resume img fmt q w0)) = quality (state w0) /\
     isDragging (state (convertImage_resume img fmt q w0)) = isDragging (state w0)) /\
    isConverting (state (convertImage_resume img fmt q w0)) = false /\
    match convertImage_try img fmt q with
    | Normal r => result (state (convertImage_resume img fmt q w0)) = Some r
    | Throw _ => result (state (convertImage_resume img fmt q w0)) = result (state w0)
    end).
  { intros w0 img fmt q. unfold convertImage_resume.
    destruct (convertImage_try img fmt q); repeat split. }
  split; [apply Hclick|]. split; [apply Hclick|].
  split; [|split; [|split]].
  - unfold step. rewrite rerender_state. unfold dispatch.
    destruct (convertButton (render (state w))) as [[|]|]; try (repeat split).
    all: apply Hclick.
  - unfold step. rewrite rerender_state. unfold dispatch.
    destruct (convertButton (render (state w))) as [[|]|]; try reflexivity.
    apply Hclick.
  - intros img fmt q. apply Hresume.
  - intros i previewUrl fmt q width height Htask. unfold step.
    rewrite !rerender_state. unfold dispatch. rewrite Htask. split.
    + unfold seq. apply (Hresume (settle i w)).
    + reflexivity.
Qed.

(** What the convert button starts when it is enabled. *)
Lemma click_convert_enabled w src :
  sourceImage (state w) = Some src ->
  isConverting (state w) = false ->
  dispatch ClickConvert w =
  (setIsConverting true >>
   spawn (ConvertDecodeTask (ImageState.previewUrl src)
            (targetFormat (state w)) (quality (state w)))) w.
Proof.
  intros Hsrc Hflag. unfold dispatch, render.
  rewrite Hsrc. cbn [convertButton]. rewrite Hflag.
  unfold convertImage. rewrite Hsrc. reflexivity.
Qed.

Lemma click_convert_disabled w :
  convertButton (render (state w)) <> Some false ->
  dispatch ClickConvert w = w.
Proof.
  intros Hbutton. unfold dispatch.
  destruct (convertButton (render (state w))) as [[|]|]; congruence.
Qed.

Lemma convertImage_resume_result img fmt q w :
  result (state (convertImage_resume img fmt q w)) =
  match convertImage_try img fmt q with
  | Normal r => Some r
  | Throw _ => result (state w)
  end.
Proof.
  unfold convertImage_resume. destruct (convertImage_try img fmt q); reflexivity.
Qed.

(** Where a ConversionResult can come from: an event keeps it, clears it,
    or records what a successful [try] block returned. *)
Lemma step_result w e :
  result (state (step w e)) = result (state w) \/
  result (state (step w e)) = None \/
  exists img fmt q r,
    convertImage_try img fmt q = Normal r /\
    result (state (step w e)) = Some r.
Proof.
  unfold step. rewrite rerender_state. unfold dispatch, render.
  destruct e;
    destruct (sourceImage (state w)) as [src|] eqn:Hsrc;
    cbn [dropZone formatButtons qualityControl convertButton resetButton];
    try (left; reflexivity).
  - destruct files; unfold_handlers; [left; reflexivity|].
    destruct (negb _); left; reflexivity.
  - destruct files; unfold_handlers; [left; reflexivity|].
    destruct (negb _); left; reflexivity.
  - destruct (_ || _); left; reflexivity.
  - destruct (isConverting (state w)); [left; reflexivity|].
    unfold_handlers. rewrite Hsrc. left. reflexivity.
  - right. left. unfold_handlers. destruct (fileInputRef w); reflexivity.
  - destruct (tasks w !! i) as [[| |]|]; left; reflexivity.
  - destruct (tasks w !! i) as [[| |]|]; left; reflexivity.
  - destruct (tasks w !! i) as [[| |]|]; left; reflexivity.
  - destruct (tasks w !! i) as [[| |]|]; left; reflexivity.
  - destruct (tasks w !! i) as [[file|file dataUrl|previewUrl fmt q]|];
      try (left; reflexivity).
    + right. left. reflexivity.
    + unfold seq. rewrite convertImage_resume_result.
      destruct (convertImage_try _ fmt q) as [r|] eqn:Htry.
      * right. right. eexists _, _, _, _. split; [exact Htry|reflexivity].
      * left. reflexivity.
  - destruct (tasks w !! i) as [[file|file dataUrl|previewUrl fmt q]|];
      try (left; reflexivity).
    + right. left. reflexivity.
    + unfold seq. rewrite convertImage_resume_result.
      destruct (convertImage_try _ fmt q) as [r|] eqn:Htry.
      * right. right. eexists _, _, _, _. split; [exact Htry|reflexivity].
      * left. reflexivity.
  - destruct (tasks w !! i) as [[| |]|]; left; reflexivity.
  - destruct (tasks w !! i) as [[| |]|]; left; reflexivity.
Qed.

(** Every ConversionResult the session ever holds carries the estimate for
    its own data URL and format. *)
Lemma recorded_size_invariant trace r :
  result (state (run initial trace)) = Some r ->
  ConversionResult.size r =
    estimatedSize (length_of (ConversionResult.url r))
                  (length_of (data_url_header (ConversionResult.format r))).
Proof.
  revert r. unfold run.
  induction trace as [|e trace IH] using rev_ind; intros r Hr; [discriminate|].
  rewrite foldl_snoc in Hr.
  destruct (step_result (foldl step initial trace) e)
    as [Hkeep | [Hclear | (img & fmt & q & r' & Htry & Hset)]].
  - apply IH. rewrite <- Hkeep. exact Hr.
  - congruence.
  - assert (r' = r) as -> by congruence.
    destruct (convertImage_try_Normal _ _ _ _ Htry) as [-> Hsize]. exact Hsize.
Qed.

(** C5, as the code has it.  Whatever the state, after [reset] and the
    render that follows there is no SourceImage, no ConversionResult, the
    in-flight flag is false and the file input is mounted and empty.  The
    target format, the quality and the drag flag keep their values and the
    pending callbacks stay registered, so the state is the initial one
    exactly when those three still have their initial values. *)
Theorem reset_clears_session (w : World) :
  let w' := rerender (reset w) in
  sourceImage (state w') = None /\
  result (state w') = None /\
  isConverting (state w') = false /\
  fileInputRef w' = Some "" /\
  targetFormat (state w') = targetFormat (state w) /\
  quality (state w') = quality (state w) /\
  isDragging (state w') = isDragging (state w) /\
  tasks w' = tasks w /\
  alerts w' = alerts w /\
  (state w' = initialApp <->
   targetFormat (state w) = PNG /\ quality (state w) = 9 # 10 /\
   isDragging (state w) = false) /\
  (resetButton (render (state w)) = true -> step w ClickReset = w').
Proof.
  intros w'. subst w'. rewrite rerender_state, rerender_tasks, rerender_alerts.
  assert (Hstate : state (reset w) =
            mkApp None (targetFormat (state w)) (quality (state w)) false None
                  (isDragging (state w))).
  { unfold_handlers. destruct (fileInputRef w); reflexivity. }
  assert (Htasks : tasks (reset w) = tasks w).
  { unfold_handlers. destruct (fileInputRef w); reflexivity. }
  assert (Halerts : alerts (reset w) = alerts w).
  { unfold_handlers. destruct (fileInputRef w); reflexivity. }
  rewrite Hstate, Htasks, Halerts. simpl.
  repeat (split; [reflexivity|]).
  split.
  { unfold rerender. rewrite Hstate. simpl.
    unfold_handlers. destruct (fileInputRef w) eqn:Href; simpl;
      rewrite ?Href; reflexivity. }
  repeat (split; [reflexivity|]).
  split.
  - unfold initialApp. split.
    + intros Heq. injection Heq as -> -> ->. auto.
    + intros (-> & -> & ->). reflexivity.
  - intros Hbutton. unfold step, dispatch. rewrite Hbutton. reflexivity.
Qed.

(** A failure after the decode (no context, a throwing [drawImage] or
    [toDataURL]) is logged and reported with the one notice; the flag is
    cleared, the ConversionResult and the SourceImage are what they were. *)
Lemma conversion_failure_after_decode_reported
    w i previewUrl fmt q width height error :
  tasks w !! i = Some (ConvertDecodeTask previewUrl fmt q) ->
  convertImage_try (mkImg previewUrl width height) fmt q = Throw error ->
  let w' := step w (ImageLoad i width height) in
  alerts w' = alerts w ++ [conversion_failed_notice] /\
  console w' = console w ++ [error] /\
  isConverting (state w') = false /\
  result (state w') = result (state w) /\
  sourceImage (state w') = sourceImage (state w).
Proof.
  intros Htask Htry w'. subst w'. unfold step.
  rewrite rerender_alerts, rerender_console, rerender_state.
  unfold dispatch. rewrite Htask. unfold seq.
  rewrite (convertImage_resume_Throw _ _ _ error) by exact Htry.
  repeat split.
Qed.

(** A decode that fails calls nothing: the task is gone, and neither a
    notice nor the flag changes. *)
Lemma decode_failure_calls_nothing w i previewUrl fmt q :
  tasks w !! i = Some (ConvertDecodeTask previewUrl fmt q) ->
  let w' := step w (ImageError i) in
  state w' = state w /\ alerts w' = alerts w /\ console w' = console w /\
  tasks w' = delete i (tasks w).
Proof.
  intros Htask w'. subst w'. unfold step.
  rewrite rerender_alerts, rerender_console, rerender_state, rerender_tasks.
  unfold dispatch. rewrite Htask. repeat split.
Qed.

(** ** One conversion at a time *)

Lemma conversions_among_app a b :
  conversions_among (a ++ b) = (conversions_among a + conversions_among b)%nat.
Proof. induction a as [|t a IH]; simpl; [reflexivity|]. rewrite IH. lia. Qed.

Lemma conversions_among_delete ts : forall i t,
  ts !! i = Some t ->
  conversions_among ts =
  ((if is_conversion t then 1 else 0) + conversions_among (delete i ts))%nat.
Proof.
  induction ts as [|t0 ts IH]; intros [|i] t Hlookup; simpl in *;
    try discriminate.
  - injection Hlookup as ->. reflexivity.
  - rewrite (IH i t Hlookup). lia.
Qed.

Lemma convertImage_resume_tasks img fmt q w :
  tasks (convertImage_resume img fmt q w) = tasks w.
Proof.
  unfold convertImage_resume. destruct (convertImage_try img fmt q); reflexivity.
Qed.

Lemma convertImage_resume_flag img fmt q w :
  isConverting (state (convertImage_resume img fmt q w)) = false.
Proof.
  unfold convertImage_resume. destruct (convertImage_try img fmt q); reflexivity.
Qed.

Lemma step_one_at_a_time w e :
  one_at_a_time w ->
  resets_pending_conversion w e = false ->
  one_at_a_time (step w e).
Proof.
  unfold one_at_a_time, in_flight, step.
  rewrite rerender_tasks, rerender_state.
  intros [Hle Hflag] Hquiet.
  destruct e; unfold dispatch, render;
    destruct (sourceImage (state w)) as [src|] eqn:Hsrc;
    cbn [dropZone formatButtons qualityControl convertButton resetButton];
    try (split; assumption).
  - (* InputChange *)
    destruct files as [|file files]; unfold_handlers; [split; assumption|].
    destruct (negb _); cbn [tasks state]; [split; assumption|].
    rewrite conversions_among_app, Nat.add_0_r. split; assumption.
  - (* Drop *)
    destruct files as [|file files]; unfold_handlers; [split; assumption|].
    destruct (negb _); cbn [tasks state isConverting]; [split; assumption|].
    rewrite conversions_among_app, Nat.add_0_r. split; assumption.
  - (* ChangeQuality *)
    destruct (_ || _); [|split; assumption]. split; assumption.
  - (* ClickConvert *)
    destruct (isConverting (state w)) eqn:Hconv; cbn iota.
    { rewrite Hconv. split; [assumption|reflexivity]. }
    unfold_handlers. rewrite Hsrc. cbn [tasks state isConverting].
    rewrite conversions_among_app. simpl.
    assert (conversions_among (tasks w) = 0)%nat.
    { destruct (conversions_among (tasks w)) as [|[|n]]; [reflexivity| |lia].
      specialize (Hflag eq_refl). congruence. }
    split; [lia|reflexivity].
  - (* ClickReset *)
    simpl in Hquiet. unfold in_flight in Hquiet.
    apply negb_false_iff, Nat.eqb_eq in Hquiet.
    assert (tasks (reset w) = tasks w) as ->.
    { unfold_handlers. destruct (fileInputRef w); reflexivity. }
    split; lia.
  - (* ReaderLoad *)
    destruct (tasks w !! i) as [[file| |]|] eqn:Htask; try (split; assumption).
    unfold_handlers. rewrite conversions_among_app, Nat.add_0_r.
    rewrite (conversions_among_delete _ _ _ Htask) in Hle, Hflag.
    split; assumption.
  - destruct (tasks w !! i) as [[file| |]|] eqn:Htask; try (split; assumption).
    unfold_handlers. rewrite conversions_among_app, Nat.add_0_r.
    rewrite (conversions_among_delete _ _ _ Htask) in Hle, Hflag.
    split; assumption.
  - (* ReaderError *)
    destruct (tasks w !! i) as [[file| |]|] eqn:Htask; try (split; assumption).
    unfold_handlers.
    rewrite (conversions_among_delete _ _ _ Htask) in Hle, Hflag.
    split; assumption.
  - destruct (tasks w !! i) as [[file| |]|] eqn:Htask; try (split; assumption).
    unfold_handlers.
    rewrite (conversions_among_delete _ _ _ Htask) in Hle, Hflag.
    split; assumption.
  - (* ImageLoad *)
    destruct (tasks w !! i) as [[file|file dataUrl|previewUrl fmt q]|] eqn:Htask;
      try (split; assumption);
      rewrite (conversions_among_delete _ _ _ Htask) in Hle, Hflag; simpl in Hle.
    + unfold_handlers. split; assumption.
    + unfold seq. rewrite convertImage_resume_tasks, convertImage_resume_flag.
      unfold_handlers. split; lia.
  - destruct (tasks w !! i) as [[file|file dataUrl|previewUrl fmt q]|] eqn:Htask;
      try (split; assumption);
      rewrite (conversions_among_delete _ _ _ Htask) in Hle, Hflag; simpl in Hle.
    + unfold_handlers. split; assumption.
    + unfold seq. rewrite convertImage_resume_tasks, convertImage_resume_flag.
      unfold_handlers. split; lia.
  - (* ImageError *)
    destruct (tasks w !! i) as [[file|file dataUrl|previewUrl fmt q]|] eqn:Htask;
      try (split; assumption);
      rewrite (conversions_among_delete _ _ _ Htask) in Hle, Hflag; simpl in Hle.
    + unfold_handlers. split; assumption.
    + unfold_handlers. split; lia.
  - destruct (tasks w !! i) as [[file|file dataUrl|previewUrl fmt q]|] eqn:Htask;
      try (split; assumption);
      rewrite (conversions_among_delete _ _ _ Htask) in Hle, Hflag; simpl in Hle.
    + unfold_handlers. split; assumption.
    + unfold_handlers. split; lia.
Qed.

Lemma run_one_at_a_time trace : forall w,
  one_at_a_time w ->
  undisturbed getContext drawImage toDataURL w trace = true ->
  one_at_a_time (run w trace).
Proof.
  induction trace as [|e trace IH]; intros w Hw Hquiet; [exact Hw|].
  simpl in Hquiet. apply andb_true_iff in Hquiet as [He Hrest].
  apply negb_true_iff in He.
  apply (IH (step w e)); [apply step_one_at_a_time; assumption|exact Hrest].
Qed.

(** C7, as the code has it.  While the in-flight flag is set the convert
    button, when on screen, is disabled and a click on it changes nothing;
    [convertImage] itself only checks for a source.  Along every run from
    the start in which reset is not clicked while a conversion is in
    flight, at most one conversion is in flight at any time and the flag is
    set, hence the button disabled, while it is. *)
Theorem one_conversion_at_a_time :
  (forall w,
     isConverting (state w) = true ->
     convertButton (render (state w)) <> Some false /\
     dispatch ClickConvert w = w /\
     (rendered w -> step w ClickConvert = w)) /\
  (forall trace,
     undisturbed getContext drawImage toDataURL initial trace = true ->
     let w := run initial trace in
     (in_flight w <= 1)%nat /\
     (in_flight w = 1%nat ->
      isConverting (state w) = true /\
      convertButton (render (state w)) <> Some false /\
      step w ClickConvert = w)).
Proof.
  assert (Hdisabled : forall w,
    isConverting (state w) = true ->
    convertButton (render (state w)) <> Some false).
  { intros w Hflag. unfold render.
    destruct (sourceImage (state w)); simpl; [rewrite Hflag|]; discriminate. }
  split.
  - intros w Hflag. split; [apply Hdisabled, Hflag|].
    split; [apply click_convert_disabled, Hdisabled, Hflag|].
    intros Hw. unfold step.
    rewrite click_convert_disabled by apply Hdisabled, Hflag. exact Hw.
  - intros trace Hquiet w.
    destruct (run_one_at_a_time trace initial) as [Hle Hflag].
    { split; [cbv; lia|cbv; discriminate]. }
    { exact Hquiet. }
    split; [exact Hle|]. intros Hone. specialize (Hflag Hone).
    split; [exact Hflag|]. split; [apply Hdisabled, Hflag|].
    unfold step. rewrite click_convert_disabled by apply Hdisabled, Hflag.
    apply run_rendered, initial_rendered.
Qed.

End PlatformFacts.

Lemma non_image_file_rejected_witness :
  startsWith "image/" (File.type Demo.notes) = false /\
  handleFile Demo.notes Demo.loaded = alert invalid_file_notice Demo.loaded /\
  state (handleFile Demo.notes Demo.loaded) = state Demo.loaded /\
  sourceImage (state (Demo.step initial (Drop [Demo.notes]))) = None.
Proof.
  pose proof (non_image_file_rejected
                Demo.getContext Demo.drawImage Demo.toDataURL
                Demo.loaded Demo.notes eq_refl)
    as (Hreject & Hstate & _).
  pose proof (non_image_file_rejected
                Demo.getContext Demo.drawImage Demo.toDataURL
                initial Demo.notes eq_refl)
    as (_ & _ & _ & _ & _ & Hevents).
  split; [reflexivity|]. split; [exact Hreject|]. split; [exact Hstate|].
  exact (proj1 (Hevents [] (Drop [Demo.notes]) (or_introl eq_refl))).
Defined.

Lemma new_source_clears_result_witness :
  startsWith "image/" (File.type Demo.icon) = true /\
  result (state Demo.converted) = Some Demo.png_result /\
  state (handleFile Demo.icon Demo.converted) = state Demo.converted /\
  result (state (Demo.step
                   (spawn (SourceDecodeTask Demo.icon Demo.icon_url) Demo.converted)
                   (ImageLoad 0 16 16))) = None.
Proof.
  pose proof (new_source_clears_result
                Demo.getContext Demo.drawImage Demo.toDataURL
                Demo.icon eq_refl)
    as (Hhandle & _ & Hdecode).
  split; [reflexivity|]. split; [reflexivity|].
  split; [exact (proj1 (Hhandle Demo.converted))|].
  exact (proj1 (proj2 (Hdecode
           (spawn (SourceDecodeTask Demo.icon Demo.icon_url) Demo.converted)
           0%nat Demo.icon_url 16 16 eq_refl))).
Defined.

Lemma convert_without_source_is_noop_witness :
  sourceImage (state initial) = None /\ convertImage initial = initial /\
  Demo.step initial ClickConvert = initial.
Proof.
  pose proof (convert_without_source_is_noop
                Demo.getContext Demo.drawImage Demo.toDataURL initial eq_refl)
    as (Hcall & _ & _ & Hstep).
  split; [reflexivity|]. split; [exact Hcall|]. exact (Hstep eq_refl).
Defined.

Lemma convert_preserves_source_witness :
  tasks Demo.converting !! 0%nat
    = Some (ConvertDecodeTask Demo.photo_url PNG (9 # 10)) /\
  sourceImage (state Demo.converted) = Some Demo.photo_source /\
  sourceImage (state Demo.hung) = Some Demo.photo_source.
Proof.
  pose proof (convert_preserves_source
                Demo.getContext Demo.drawImage Demo.toDataURL Demo.converting)
    as (_ & _ & _ & _ & _ & Hdecode).
  destruct (Hdecode 0%nat Demo.photo_url PNG (9 # 10) 100 50 eq_refl)
    as [(Hsource & _) Herror].
  split; [reflexivity|]. split.
  - etransitivity; [exact Hsource|reflexivity].
  - etransitivity; [exact (f_equal sourceImage Herror)|reflexivity].
Defined.

(** C2 at a name with two dots.  For the photo [my.photo.png] converted to
    PNG the link on screen downloads as [converted-my.png]: the name is cut
    at its first dot, so [.photo] is lost with the extension; the name with
    its final extension removed is [my.photo], for
    [converted-my.photo.png]. *)
Theorem download_name_cuts_at_first_dot :
  sourceImage (state Demo.converted) = Some Demo.photo_source /\
  result (state Demo.converted) = Some Demo.png_result /\
  downloadLink (render (state Demo.converted))
    = Some (ConversionResult.url Demo.png_result, "converted-my.png") /\
  download_name Demo.photo_source Demo.png_result = "converted-my.png" /\
  without_final_extension "my.photo.png" = "my.photo" /\
  spec_download_name Demo.photo_source Demo.png_result = "converted-my.photo.png" /\
  download_name Demo.photo_source Demo.png_result
    <> spec_download_name Demo.photo_source Demo.png_result.
Proof. repeat split; try reflexivity. discriminate. Qed.

Lemma reset_clears_session_witness :
  resetButton (render (state Demo.converted)) = true /\
  state (Demo.step Demo.converted ClickReset) = initialApp /\
  fileInputRef (Demo.step Demo.converted ClickReset) = Some "".
Proof.
  pose proof (reset_clears_session
                Demo.getContext Demo.drawImage Demo.toDataURL Demo.converted)
    as (_ & _ & _ & Hinput & _ & _ & _ & _ & _ & Hinitial & Hstep).
  split; [reflexivity|].
  unfold Demo.step. rewrite (Hstep eq_refl). split; [|exact Hinput].
  apply Hinitial. repeat split.
Defined.

(** C5 as stated fails for the target format: reset after JPEG was chosen
    leaves JPEG chosen, which is not the initial state, and loading the
    photo from there shows the quality control, which loading it from the
    start does not. *)
Lemma reset_keeps_target_format :
  Demo.jpeg_then_reset = Demo.step (Demo.run Demo.loaded [ClickFormat JPEG]) ClickReset /\
  targetFormat (state Demo.jpeg_then_reset) = JPEG /\
  targetFormat (state initial) = PNG /\
  state Demo.jpeg_then_reset <> state initial /\
  qualityControl (render (state (Demo.run Demo.jpeg_then_reset Demo.load_photo))) = true /\
  qualityControl (render (state (Demo.run initial Demo.load_photo))) = false.
Proof.
  repeat split; try reflexivity.
  intros Heq. apply (f_equal targetFormat) in Heq. discriminate.
Qed.

(** C6 at a decode that fails.  The conversion of the photo is in flight
    and its image fires [error] instead of [load]: no notice is shown,
    nothing is logged, the in-flight flag stays set with no callback left
    to clear it, and the convert button stays disabled. *)
Theorem decode_failure_leaves_conversion_hanging :
  tasks Demo.converting = [ConvertDecodeTask Demo.photo_url PNG (9 # 10)] /\
  Demo.hung = Demo.step Demo.converting (ImageError 0) /\
  alerts Demo.hung = [] /\
  console Demo.hung = [] /\
  isConverting (state Demo.hung) = true /\
  tasks Demo.hung = [] /\
  convertButton (render (state Demo.hung)) = Some true /\
  Demo.step Demo.hung ClickConvert = Demo.hung.
Proof. repeat split. Qed.

Lemma one_conversion_at_a_time_witness :
  undisturbed Demo.getContext Demo.drawImage Demo.toDataURL initial
    (Demo.load_photo ++ [ClickConvert; ClickConvert]) = true /\
  in_flight (Demo.run initial (Demo.load_photo ++ [ClickConvert; ClickConvert]))
    = 1%nat /\
  isConverting (state (Demo.run initial
                         (Demo.load_photo ++ [ClickConvert; ClickConvert]))) = true.
Proof.
  pose proof (one_conversion_at_a_time
                Demo.getContext Demo.drawImage Demo.toDataURL)
    as (_ & Hrun).
  destruct (Hrun (Demo.load_photo ++ [ClickConvert; ClickConvert]) eq_refl)
    as (_ & Hflag).
  split; [reflexivity|]. split; [reflexivity|].
  exact (proj1 (Hflag eq_refl)).
Defined.

(** C7 as stated fails after a reset: with the photo's conversion still in
    flight, reset clears the flag, the icon is loaded, the convert button
    is enabled, and a click starts a second conversion beside the first. *)
Lemma second_conversion_after_reset :
  in_flight Demo.reloaded_during_conversion = 1%nat /\
  isConverting (state Demo.reloaded_during_conversion) = false /\
  convertButton (render (state Demo.reloaded_during_conversion)) = Some false /\
  in_flight (Demo.step Demo.reloaded_during_conversion ClickConvert) = 2%nat /\
  tasks (Demo.step Demo.reloaded_during_conversion ClickConvert)
    = [ConvertDecodeTask Demo.photo_url PNG (9 # 10);
       ConvertDecodeTask Demo.icon_url PNG (9 # 10)].
Proof. repeat split. Qed.

(** * More of the component *)

(** ** Size labels *)

Lemma toFixed2_quotient (b d : Z) :
  0 < d -> toFixed2 (inject_Z b / inject_Z d) = (200 * b + d) / (2 * d).
Proof.
  intros Hd. destruct d as [|p|p]; try lia.
  unfold toFixed2, Qfloor, Qplus, Qdiv, Qmult, Qinv, inject_Z.
  cbn [Qnum Qden].
  rewrite !Pos2Z.inj_mul. f_equal; lia.
Qed.

(** The index of the unit is the integer logarithm to base 1024. *)
Lemma unit_index_unique (b i : Z) :
  0 <= i -> 1024 ^ i <= b < 1024 ^ (i + 1) ->
  Z.log2 b / Z.log2 1024 = i.
Proof.
  intros Hi [Hlo Hhi]. change (Z.log2 1024) with 10.
  change 1024 with (2 ^ 10) in Hlo, Hhi.
  rewrite <- Z.pow_mul_r in Hlo, Hhi by lia.
  assert (Hb : 0 < b) by (pose proof (Z.pow_pos_nonneg 2 (10 * i)); lia).
  apply Z.log2_le_pow2 in Hlo; [|exact Hb].
  apply Z.log2_lt_pow2 in Hhi; [|exact Hb].
  symmetry. apply (Z.div_unique _ _ _ (Z.log2 b - 10 * i)); lia.
Qed.

Lemma formatSize_in_unit (b i : Z) :
  0 <= i -> 1024 ^ i <= b < 1024 ^ (i + 1) ->
  formatSize b =
  hundredths_to_string ((200 * b + 1024 ^ i) / (2 * 1024 ^ i))
    +:+ " " +:+ index_or_undefined sizes (Z.to_nat i).
Proof.
  intros Hi Hb. pose proof (Z.pow_pos_nonneg 1024 i ltac:(lia) Hi) as Hpow.
  unfold formatSize.
  destruct (Z.eqb_spec b 0) as [->|_]; [lia|].
  destruct (Z.ltb_spec b 0) as [|_]; [lia|].
  cbv zeta. rewrite (unit_index_unique b i Hi Hb).
  rewrite toFixed2_quotient by exact Hpow. reflexivity.
Qed.

Lemma hundredths_to_string_whole (n : Z) :
  hundredths_to_string (100 * n) = pretty n.
Proof.
  unfold hundredths_to_string.
  replace (100 * n) with (n * 100) by lia.
  rewrite Z.mod_mul, Z.div_mul by lia. reflexivity.
Qed.

(** formatSize, below one kilobyte: the number of bytes itself, followed
    by [Bytes] (also for one byte, and for none). *)
Theorem formatSize_below_kilobyte (bytes : Z) :
  0 <= bytes < 1024 ->
  formatSize bytes = pretty bytes +:+ " Bytes".
Proof.
  intros Hb. destruct (Z.eq_dec bytes 0) as [->|Hpos]; [reflexivity|].
  rewrite (formatSize_in_unit bytes 0) by (change (1024 ^ (0 + 1)) with 1024;
    change (1024 ^ 0) with 1; lia).
  change (1024 ^ 0) with 1.
  replace ((200 * bytes + 1) / (2 * 1)) with (100 * bytes).
  - rewrite hundredths_to_string_whole. reflexivity.
  - apply (Z.div_unique _ _ _ 1); lia.
Qed.

(** formatSize, at a whole number of kilobytes or megabytes: that number
    without decimals, followed by the unit. *)
Theorem formatSize_whole_units (m : Z) :
  1 <= m < 1024 ->
  formatSize (m * 1024) = pretty m +:+ " KB" /\
  formatSize (m * 1024 * 1024) = pretty m +:+ " MB".
Proof.
  intros Hm. split.
  - rewrite (formatSize_in_unit _ 1) by (change (1024 ^ (1 + 1)) with 1048576;
      change (1024 ^ 1) with 1024; lia).
    change (1024 ^ 1) with 1024.
    replace ((200 * (m * 1024) + 1024) / (2 * 1024)) with (100 * m).
    + rewrite hundredths_to_string_whole. reflexivity.
    + apply (Z.div_unique _ _ _ 1024); lia.
  - rewrite (formatSize_in_unit _ 2) by (change (1024 ^ (2 + 1)) with 1073741824;
      change (1024 ^ 2) with 1048576; lia).
    change (1024 ^ 2) with 1048576.
    replace ((200 * (m * 1024 * 1024) + 1048576) / (2 * 1048576)) with (100 * m).
    + rewrite hundredths_to_string_whole. reflexivity.
    + apply (Z.div_unique _ _ _ 1048576); lia.
Qed.

(** formatSize, for every size from one byte to below 1024^3: the unit is
    the one of the size's range, and the number printed, [h] hundredths, is
    between 1 and 1024 and within half a hundredth of the size counted in
    that unit. *)
Theorem formatSize_unit_and_accuracy (bytes : Z) :
  0 < bytes < 1024 ^ 3 ->
  exists (h : Z) (i : nat) (unit : string),
    sizes !! i = Some unit /\
    1024 ^ Z.of_nat i <= bytes < 1024 ^ (Z.of_nat i + 1) /\
    formatSize bytes = hundredths_to_string h +:+ " " +:+ unit /\
    100 <= h <= 102400 /\
    2 * h * 1024 ^ Z.of_nat i - 1024 ^ Z.of_nat i <= 200 * bytes
      < 2 * h * 1024 ^ Z.of_nat i + 1024 ^ Z.of_nat i.
Proof.
  change (1024 ^ 3) with 1073741824. intros Hb.
  assert (Hcases : exists (i : nat) (unit : string) (d : Z),
            sizes !! i = Some unit /\ 1024 ^ Z.of_nat i = d /\ 0 < d /\
            1024 ^ (Z.of_nat i + 1) = 1024 * d /\ d <= bytes < 1024 * d).
  { destruct (Z.lt_ge_cases bytes 1024);
      [|destruct (Z.lt_ge_cases bytes 1048576)].
    - exists 0%nat, "Bytes", 1. repeat split; lia.
    - exists 1%nat, "KB", 1024. repeat split; lia.
    - exists 2%nat, "MB", 1048576. repeat split; lia. }
  destruct Hcases as (i & unit & d & Hunit & Hd & Hdpos & Hd1 & Hrange).
  exists ((200 * bytes + d) / (2 * d)), i, unit.
  rewrite Hd1, Hd.
  split; [exact Hunit|]. split; [lia|]. split.
  - rewrite (formatSize_in_unit bytes (Z.of_nat i)) by (rewrite ?Hd1, ?Hd; lia).
    rewrite Hd, Nat2Z.id. unfold index_or_undefined. rewrite Hunit. reflexivity.
  - pose proof (Z.div_mod (200 * bytes + d) (2 * d) ltac:(lia)) as Hdiv.
    pose proof (Z.mod_pos_bound (200 * bytes + d) (2 * d) ltac:(lia)) as Hmod.
    set (h := (200 * bytes + d) / (2 * d)) in *.
    split; [|nia]. split; nia.
Qed.

(** formatSize, just below a megabyte or below 1024^3: the quotient rounds
    up to 1024 of the smaller unit; the next unit is not used. *)
Theorem formatSize_rounds_up_to_1024 (bytes : Z) :
  (1048571 <= bytes < 1048576 -> formatSize bytes = "1024 KB") /\
  (1073736582 <= bytes < 1073741824 -> formatSize bytes = "1024 MB").
Proof.
  split; intros Hb.
  - rewrite (formatSize_in_unit _ 1) by (change (1024 ^ (1 + 1)) with 1048576;
      change (1024 ^ 1) with 1024; lia).
    change (1024 ^ 1) with 1024.
    replace ((200 * bytes + 1024) / (2 * 1024)) with 102400; [reflexivity|].
    apply (Z.div_unique _ _ _ (200 * bytes + 1024 - 2 * 1024 * 102400)); lia.
  - rewrite (formatSize_in_unit _ 2) by (change (1024 ^ (2 + 1)) with 1073741824;
      change (1024 ^ 2) with 1048576; lia).
    change (1024 ^ 2) with 1048576.
    replace ((200 * bytes + 1048576) / (2 * 1048576)) with 102400; [reflexivity|].
    apply (Z.div_unique _ _ _ (200 * bytes + 1048576 - 2 * 1048576 * 102400)); lia.
Qed.

(** formatSize, outside its table of units: a negative size gives
    [NaN undefined], and from 1024^3 to below 1024^4 the number, between 1
    and 1024, is followed by [undefined]. *)
Theorem formatSize_outside_units (bytes : Z) :
  (bytes < 0 -> formatSize bytes = "NaN undefined") /\
  (1024 ^ 3 <= bytes < 1024 ^ 4 ->
   exists h, 100 <= h <= 102400 /\
     formatSize bytes = hundredths_to_string h +:+ " undefined").
Proof.
  split.
  - intros Hneg. unfold formatSize.
    destruct (Z.eqb_spec bytes 0); [lia|].
    destruct (Z.ltb_spec bytes 0); [reflexivity|lia].
  - change (1024 ^ 3) with 1073741824. change (1024 ^ 4) with 1099511627776.
    intros Hb. exists ((200 * bytes + 1073741824) / (2 * 1073741824)). split.
    + pose proof (Z.div_mod (200 * bytes + 1073741824) (2 * 1073741824)
                    ltac:(lia)) as Hdiv.
      pose proof (Z.mod_pos_bound (200 * bytes + 1073741824) (2 * 1073741824)
                    ltac:(lia)) as Hmod.
      lia.
    + rewrite (formatSize_in_unit _ 3)
        by (change (1024 ^ (3 + 1)) with 1099511627776;
            change (1024 ^ 3) with 1073741824; lia).
      reflexivity.
Qed.

(** ** Invariants of the session *)

Ltac unfold_run := unfold run.
Ltac unfold_step := unfold step.
Ltac unfold_dispatch := unfold dispatch.

(** Split an event into the cases of [dispatch]. *)
Ltac dispatch_cases :=
  unfold step;
  rewrite ?rerender_state, ?rerender_tasks, ?rerender_alerts, ?rerender_console;
  unfold dispatch, render, convertImage_resume;
  unfold_handlers;
  repeat case_match; subst;
  cbn [state fileInputRef alerts console tasks
       sourceImage targetFormat quality isConverting result isDragging
       dropZone formatButtons qualityControl convertButton resetButton] in *.

Lemma conversion_task_counted ts i t :
  ts !! i = Some t -> is_conversion t = true -> (1 <= conversions_among ts)%nat.
Proof.
  intros Hlookup Hconv. rewrite (conversions_among_delete ts i t Hlookup), Hconv.
  lia.
Qed.

Lemma conversions_among_delete_other ts i t :
  ts !! i = Some t -> is_conversion t = false ->
  conversions_among (delete i ts) = conversions_among ts.
Proof.
  intros Hlookup Hconv. rewrite (conversions_among_delete ts i t Hlookup), Hconv.
  reflexivity.
Qed.

Section SessionFacts.

Variable getContext : Canvas -> string -> bool.
Variable drawImage : Canvas -> HTMLImageElement -> Z -> Z -> Completion Canvas.
Variable toDataURL : Canvas -> string -> Q -> Completion string.

Local Abbreviation convertImage_try := (convertImage_try getContext drawImage toDataURL).
Local Abbreviation convertImage_resume := (convertImage_resume getContext drawImage toDataURL).
Local Abbreviation dispatch := (dispatch getContext drawImage toDataURL).
Local Abbreviation step := (step getContext drawImage toDataURL).
Local Abbreviation run := (run getContext drawImage toDataURL).
Local Abbreviation undisturbed := (undisturbed getContext drawImage toDataURL).
Local Abbreviation decodes_complete := (decodes_complete getContext drawImage toDataURL).

Lemma step_flag_needs_source w e :
  (isConverting (state w) = true -> sourceImage (state w) <> None) ->
  isConverting (state (step w e)) = true ->
  sourceImage (state (step w e)) <> None.
Proof.
  intros Hinv. dispatch_cases; intros; try congruence; intuition congruence.
Qed.

(** The in-flight flag is never set without a source: in every state the
    session can reach, a set flag comes with a SourceImage, and the convert
    button is then on screen and disabled. *)
Theorem converting_has_source (trace : list Event) :
  let w := run initial trace in
  isConverting (state w) = true ->
  exists src,
    sourceImage (state w) = Some src /\
    convertButton (render (state w)) = Some true.
Proof.
  intros w Hflag.
  assert (Hsrc : sourceImage (state w) <> None).
  { subst w. revert Hflag. unfold_run.
    induction trace as [|e trace IH] using rev_ind; [discriminate|].
    rewrite foldl_snoc. apply step_flag_needs_source. exact IH. }
  unfold render. destruct (sourceImage (state w)) as [src|]; [|congruence].
  exists src. simpl. rewrite Hflag. split; reflexivity.
Qed.

Lemma step_result_needs_source w e :
  (result (state w) <> None -> sourceImage (state w) <> None) ->
  ((1 <= in_flight w)%nat -> sourceImage (state w) <> None) ->
  result (state (step w e)) <> None ->
  sourceImage (state (step w e)) <> None.
Proof.
  unfold in_flight. intros Hinv Hflight.
  dispatch_cases; intros; try congruence; try (intuition congruence).
  all: apply Hflight; eapply conversion_task_counted; eauto.
Qed.

Lemma run_settled trace : forall w,
  settled w -> undisturbed w trace = true -> settled (run w trace).
Proof.
  induction trace as [|e trace IH]; intros w Hw Hquiet; [exact Hw|].
  simpl in Hquiet. apply andb_true_iff in Hquiet as [He Hrest].
  apply negb_true_iff in He.
  apply (IH (step w e)); [|exact Hrest].
  destruct Hw as (Hone & Hflag & Hres).
  split; [apply step_one_at_a_time; assumption|].
  split; [apply step_flag_needs_source; assumption|].
  apply step_result_needs_source; [assumption|].
  intros Hin. apply Hflag. destruct Hone as [Hle Hset]. apply Hset. lia.
Qed.

(** Along every run in which reset is not clicked while a conversion is in
    flight, a ConversionResult is only ever held together with a
    SourceImage, so it is on screen with its download link. *)
Theorem result_has_source (trace : list Event) (r : ConversionResult.t) :
  undisturbed initial trace = true ->
  let w := run initial trace in
  result (state w) = Some r ->
  exists src,
    sourceImage (state w) = Some src /\
    downloadLink (render (state w))
      = Some (ConversionResult.url r, download_name src r).
Proof.
  intros Hquiet w Hr.
  destruct (run_settled trace initial) as (_ & _ & Hres).
  { split; [split; [cbv; lia|cbv; discriminate]|].
    split; cbv; intuition congruence. }
  { exact Hquiet. }
  fold w in Hres. unfold render.
  destruct (sourceImage (state w)) as [src|].
  - exists src. simpl. rewrite Hr. split; reflexivity.
  - exfalso. apply Hres; congruence.
Qed.

Lemma step_flag_means_in_flight w e :
  (isConverting (state w) = true -> (1 <= in_flight w)%nat) ->
  fails_conversion_decode w e = false ->
  isConverting (state (step w e)) = true ->
  (1 <= in_flight (step w e))%nat.
Proof.
  unfold in_flight, fails_conversion_decode. intros Hinv.
  dispatch_cases; intros; try congruence;
    rewrite ?conversions_among_app; simpl;
    try (erewrite conversions_among_delete_other by (eassumption || reflexivity));
    try (specialize (Hinv ltac:(assumption))); try lia.
Qed.

Lemma run_flag_means_in_flight trace : forall w,
  (isConverting (state w) = true -> (1 <= in_flight w)%nat) ->
  decodes_complete w trace = true ->
  isConverting (state (run w trace)) = true -> (1 <= in_flight (run w trace))%nat.
Proof.
  induction trace as [|e trace IH]; intros w Hw Hok; [exact Hw|].
  simpl in Hok. apply andb_true_iff in Hok as [He Hrest].
  apply negb_true_iff in He.
  apply (IH (step w e)); [|exact Hrest].
  apply step_flag_means_in_flight; assumption.
Qed.

(** Along every run in which reset is not clicked while a conversion is in
    flight and no conversion's decode fails, the in-flight flag says the
    truth: it is set exactly while one conversion is in flight. *)
Theorem flag_tracks_conversion (trace : list Event) :
  undisturbed initial trace = true ->
  decodes_complete initial trace = true ->
  let w := run initial trace in
  isConverting (state w) = true <-> in_flight w = 1%nat.
Proof.
  intros Hquiet Hok w.
  destruct (run_one_at_a_time getContext drawImage toDataURL trace initial)
    as [Hle Hset].
  { split; [cbv; lia|cbv; discriminate]. }
  { exact Hquiet. }
  fold w in Hle, Hset. split; [|exact Hset].
  intros Hflag.
  pose proof (run_flag_means_in_flight trace initial
                ltac:(cbv; discriminate) Hok Hflag) as Hin.
  fold w in Hin. lia.
Qed.

Lemma image_load_conversion_result w i previewUrl fmt q width height :
  tasks w !! i = Some (ConvertDecodeTask previewUrl fmt q) ->
  result (state (step w (ImageLoad i width height))) =
  match convertImage_try (mkImg previewUrl width height) fmt q with
  | Normal r => Some r
  | Throw _ => result (state w)
  end.
Proof.
  intros Htask. unfold_step. rewrite rerender_state. unfold_dispatch.
  rewrite Htask. unfold seq. rewrite convertImage_resume_result. reflexivity.
Qed.

(** A conversion uses the target format and the quality of the moment the
    button was clicked: choosing another format and moving the quality
    control while the decode is pending changes what is selected but not
    what is recorded, and a recorded result carries the format of the
    click. *)
Theorem conversion_uses_settings_at_click
    (w : World) (src : ImageState.t) (fmt' : ImageFormat) (q' : Q)
    (width height : Z) :
  sourceImage (state w) = Some src ->
  isConverting (state w) = false ->
  let w' := run w [ClickConvert; ClickFormat fmt'; ChangeQuality q';
                   ImageLoad (length (tasks w)) width height] in
  let outcome := convertImage_try (mkImg (ImageState.previewUrl src) width height)
                   (targetFormat (state w)) (quality (state w)) in
  targetFormat (state w') = fmt' /\
  result (state w') =
    match outcome with
    | Normal r => Some r
    | Throw _ => result (state w)
    end /\
  (forall r, outcome = Normal r ->
     ConversionResult.format r = targetFormat (state w)).
Proof.
  intros Hsrc Hflag w' outcome.
  set (task := ConvertDecodeTask (ImageState.previewUrl src)
                 (targetFormat (state w)) (quality (state w))).
  set (w1 := step w ClickConvert).
  assert (H1 : sourceImage (state w1) = Some src /\ result (state w1) = result (state w)
               /\ tasks w1 = tasks w ++ [task]).
  { subst w1. unfold_step. rewrite rerender_state, rerender_tasks.
    rewrite (click_convert_enabled _ _ _ w src Hsrc Hflag).
    unfold_handlers. auto. }
  destruct H1 as (Hsrc1 & Hres1 & Htasks1).
  set (w2 := step w1 (ClickFormat fmt')).
  assert (H2 : sourceImage (state w2) = Some src /\ result (state w2) = result (state w)
               /\ tasks w2 = tasks w ++ [task] /\ targetFormat (state w2) = fmt').
  { subst w2. unfold_step. rewrite rerender_state, rerender_tasks.
    unfold_dispatch. unfold render. rewrite Hsrc1. unfold_handlers. auto. }
  destruct H2 as (Hsrc2 & Hres2 & Htasks2 & Hfmt2).
  set (w3 := step w2 (ChangeQuality q')).
  assert (H3 : result (state w3) = result (state w)
               /\ tasks w3 = tasks w ++ [task] /\ targetFormat (state w3) = fmt').
  { subst w3. unfold_step. rewrite rerender_state, rerender_tasks.
    unfold_dispatch. unfold render. rewrite Hsrc2.
    cbn [qualityControl]. destruct (_ || _); unfold_handlers; auto. }
  destruct H3 as (Hres3 & Htasks3 & Hfmt3).
  assert (Hlookup : tasks w3 !! length (tasks w) = Some task).
  { rewrite Htasks3. apply list_lookup_middle. reflexivity. }
  subst task.
  change w' with (step w3 (ImageLoad (length (tasks w)) width height)).
  split; [|split].
  - unfold_step. rewrite rerender_state. unfold_dispatch. rewrite Hlookup.
    unfold seq, convertImage_resume.
    destruct (convertImage_try _ _ _); unfold_handlers; exact Hfmt3.
  - rewrite (image_load_conversion_result _ _ _ _ _ _ _ Hlookup).
    fold outcome. rewrite Hres3. reflexivity.
  - intros r Hr. exact (proj1 (convertImage_try_Normal _ _ _ _ _ _ _ Hr)).
Qed.

(** A file of image type whose read fails, or whose decode fails, is
    dropped without a word: after the drop and the failure there is no
    notice, nothing in the log, still no SourceImage, and the
    ConversionResult and the pending callbacks are what they were. *)
Theorem failed_load_is_silent (w : World) (file : File.t) :
  sourceImage (state w) = None ->
  startsWith "image/" (File.type file) = true ->
  forall failure,
    (failure = [ReaderError (length (tasks w))] \/
     exists dataUrl, failure = [ReaderLoad (length (tasks w)) dataUrl;
                                ImageError (length (tasks w))]) ->
    let w' := run w (Drop [file] :: failure) in
    alerts w' = alerts w /\
    console w' = console w /\
    sourceImage (state w') = None /\
    result (state w') = result (state w) /\
    isConverting (state w') = isConverting (state w) /\
    tasks w' = tasks w.
Proof.
  intros Hsrc Htype failure Hfailure w'.
  set (w1 := step w (Drop [file])).
  assert (H1 : alerts w1 = alerts w /\ console w1 = console w /\
               sourceImage (state w1) = None /\ result (state w1) = result (state w) /\
               isConverting (state w1) = isConverting (state w) /\
               tasks w1 = tasks w ++ [ReaderTask file]).
  { subst w1. unfold_step.
    rewrite rerender_state, rerender_tasks, rerender_alerts, rerender_console.
    unfold_dispatch. unfold render. rewrite Hsrc. cbn [dropZone].
    unfold onDrop, seq, handleFile. cbn -[startsWith]. rewrite Htype.
    cbn. rewrite Hsrc. repeat split. }
  destruct H1 as (Ha1 & Hc1 & Hs1 & Hr1 & Hf1 & Ht1).
  assert (Hdelete : forall t, delete (length (tasks w)) (tasks w ++ [t]) = tasks w).
  { intros t. rewrite delete_middle. apply app_nil_r. }
  destruct Hfailure as [-> | [dataUrl ->]].
  - change w' with (step w1 (ReaderError (length (tasks w)))).
    unfold_step.
    rewrite rerender_state, rerender_tasks, rerender_alerts, rerender_console.
    unfold_dispatch. rewrite Ht1, list_lookup_middle by reflexivity.
    unfold_handlers. rewrite Ht1, Hdelete. repeat split; assumption.
  - set (w2 := step w1 (ReaderLoad (length (tasks w)) dataUrl)).
    assert (H2 : alerts w2 = alerts w /\ console w2 = console w /\
                 sourceImage (state w2) = None /\ result (state w2) = result (state w) /\
                 isConverting (state w2) = isConverting (state w) /\
                 tasks w2 = tasks w ++ [SourceDecodeTask file dataUrl]).
    { subst w2. unfold_step.
      rewrite rerender_state, rerender_tasks, rerender_alerts, rerender_console.
      unfold_dispatch. rewrite Ht1, list_lookup_middle by reflexivity.
      unfold_handlers. rewrite Ht1, Hdelete. repeat split; assumption. }
    destruct H2 as (Ha2 & Hc2 & Hs2 & Hr2 & Hf2 & Ht2).
    change w' with (step w2 (ImageError (length (tasks w)))).
    unfold_step.
    rewrite rerender_state, rerender_tasks, rerender_alerts, rerender_console.
    unfold_dispatch. rewrite Ht2, list_lookup_middle by reflexivity.
    unfold_handlers. rewrite Ht2, Hdelete. repeat split; assumption.
Qed.

(** The size estimate against the payload: when the characters after the
    header are a multiple of four, as base64 always is, the estimate is
    exactly three bytes for every four characters, rounding never taking
    effect; and the estimate is negative exactly when the data URL is
    shorter than the header subtracted from it. *)
Theorem estimate_on_payload
    (img : HTMLImageElement) (fmt : ImageFormat) (q : Q) (r : ConversionResult.t) :
  convertImage_try img fmt q = Normal r ->
  let payload := length_of (ConversionResult.url r) - length_of (data_url_header fmt) in
  (forall groups, payload = 4 * groups -> ConversionResult.size r = 3 * groups) /\
  (ConversionResult.size r < 0 <-> payload < 0).
Proof.
  intros Htry payload.
  destruct (convertImage_try_Normal _ _ _ _ _ _ _ Htry) as [_ Hsize].
  unfold estimatedSize in Hsize. rewrite Math_round_quarters in Hsize.
  fold payload in Hsize. rewrite Hsize.
  pose proof (Z.div_mod (3 * payload + 2) 4 ltac:(lia)) as Hdiv.
  pose proof (Z.mod_pos_bound (3 * payload + 2) 4 ltac:(lia)) as Hmod.
  split; [intros groups Hgroups|]; lia.
Qed.

End SessionFacts.

(** ** The base of the download name *)

Lemma split_first_piece (s : string) :
  exists base pieces,
    split "." s = base :: pieces /\
    ~ In "."%char (list_ascii_of_string base) /\
    (s = base \/ exists tail, s = base +:+ String "." tail).
Proof.
  induction s as [|c s IH].
  - exists "", []. split; [reflexivity|]. split; [intros []|left; reflexivity].
  - simpl. destruct (Ascii.eqb c ".") eqn:Hc.
    + apply Ascii.eqb_eq in Hc. subst c.
      exists "", (split "." s). split; [reflexivity|].
      split; [intros []|]. right. exists s. reflexivity.
    + apply Ascii.eqb_neq in Hc.
      destruct IH as (base & pieces & -> & Hnodot & Hshape).
      exists (String c base), pieces. split; [reflexivity|]. split.
      * simpl. intros [Heq|Hin]; [congruence|exact (Hnodot Hin)].
      * destruct Hshape as [-> | [tail ->]]; [left; reflexivity|].
        right. exists tail. reflexivity.
Qed.

(** The download name is [converted-], a base, a dot and the result's
    format, where the base is the part of the source's name before its
    first dot: it has no dot in it, and the name is the base alone or the
    base followed by a dot and the rest. *)
Theorem download_base_stops_at_first_dot
    (src : ImageState.t) (r : ConversionResult.t) :
  exists base,
    download_name src r =
      "converted-" +:+ base +:+ "." +:+
        ImageFormat_value (ConversionResult.format r) /\
    ~ In "."%char (list_ascii_of_string base) /\
    (ImageState.name src = base \/
     exists tail, ImageState.name src = base +:+ String "." tail).
Proof.
  destruct (split_first_piece (ImageState.name src))
    as (base & pieces & Hsplit & Hnodot & Hshape).
  exists base. unfold download_name, index_or_undefined. rewrite Hsplit.
  split; [reflexivity|]. split; assumption.
Qed.

(** ** A conversion that outlives its source *)

Section StaleConversion.

Variable getContext : Canvas -> string -> bool.
Variable drawImage : Canvas -> HTMLImageElement -> Z -> Z -> Completion Canvas.
Variable toDataURL : Canvas -> string -> Q -> Completion string.

Local Abbreviation convertImage_try := (convertImage_try getContext drawImage toDataURL).
Local Abbreviation convertImage_resume := (convertImage_resume getContext drawImage toDataURL).
Local Abbreviation dispatch := (dispatch getContext drawImage toDataURL).
Local Abbreviation step := (step getContext drawImage toDataURL).
Local Abbreviation run := (run getContext drawImage toDataURL).



End StaleConversion.

(** ** What reaches the encoder, and what comes back *)

Lemma own_header_of_requested_type (fmt : ImageFormat) (payload : string) :
  own_header_length (data_url_header fmt +:+ payload)
  = length_of (data_url_header fmt).
Proof. destruct fmt; reflexivity. Qed.

Section EncoderFacts.

Variable getContext : Canvas -> string -> bool.
Variable drawImage : Canvas -> HTMLImageElement -> Z -> Z -> Completion Canvas.
Variable toDataURL : Canvas -> string -> Q -> Completion string.

Local Abbreviation convertImage_try := (convertImage_try getContext drawImage toDataURL).
Local Abbreviation step := (step getContext drawImage toDataURL).
Local Abbreviation run := (run getContext drawImage toDataURL).

(** With a context and a painted canvas the [try] block is the call of the
    encoder: the requested type and the quality go in as they are, and the
    answer is recorded with the estimate made from it. *)
Lemma convertImage_try_encodes img fmt q painted :
  getContext (mkCanvas (img_width img) (img_height img) []) "2d" = true ->
  drawImage (mkCanvas (img_width img) (img_height img) []) img 0 0
    = Normal painted ->
  convertImage_try img fmt q =
  match toDataURL painted ("image/" +:+ ImageFormat_value fmt) q with
  | Normal dataUrl =>
      Normal {| ConversionResult.url := dataUrl;
                ConversionResult.format := fmt;
                ConversionResult.size :=
                  estimatedSize (length_of dataUrl)
                                (length_of (data_url_header fmt)) |}
  | Throw error => Throw error
  end.
Proof.
  intros Hctx Hdraw. unfold convertImage_try, bind. rewrite Hctx, Hdraw.
  destruct (toDataURL _ _ _) as [dataUrl|error]; [|reflexivity].
  unfold estimatedSize. destruct fmt; reflexivity.
Qed.


(** C1, as the code has it.  When the decode of a pending conversion
    completes, a context is obtained, the image is painted and the encoder
    answers the request for [image/<format>] at the pending quality with a
    data URL, the ConversionResult recorded is that data URL, the requested
    format, and the size round((L - H) * 3 / 4), where L is the length of
    the data URL the encoder returned and H is the length of
    [data:image/<format>;base64,] for the requested format, whether or not
    the returned URL starts with it.  The size is the nearest integer to
    that quotient, the upper one at a tie, floor((3 (L - H) + 2) / 4).  H
    is 22 for PNG, 23 for JPEG and WEBP; when the URL does start with the
    header of the requested format H is the length of the URL's own header;
    with H = 22 and L = 1000 the size is 734. *)
Theorem convert_records_estimated_size
    (w : World) (i : nat) (previewUrl : string) (fmt : ImageFormat) (q : Q)
    (width height : Z) (painted : Canvas) (dataUrl : string) :
  tasks w !! i = Some (ConvertDecodeTask previewUrl fmt q) ->
  getContext (mkCanvas width height []) "2d" = true ->
  drawImage (mkCanvas width height []) (mkImg previewUrl width height) 0 0
    = Normal painted ->
  toDataURL painted ("image/" +:+ ImageFormat_value fmt) q = Normal dataUrl ->
  let L := length_of dataUrl in
  let H := length_of (data_url_header fmt) in
  result (state (step w (ImageLoad i width height))) =
    Some {| ConversionResult.url := dataUrl;
            ConversionResult.format := fmt;
            ConversionResult.size := estimatedSize L H |} /\
  nearest_integer (inject_Z (L - H) * 3 / 4) (estimatedSize L H) /\
  estimatedSize L H = (3 * (L - H) + 2) / 4 /\
  H = match fmt with PNG => 22 | JPEG => 23 | WEBP => 23 end /\
  (forall payload,
     dataUrl = data_url_header fmt +:+ payload -> own_header_length dataUrl = H) /\
  (H = 22 -> L = 1000 -> estimatedSize L H = 734).
Proof.
  intros Htask Hctx Hdraw Hencode L H.
  split; [|split; [|split; [|split; [|split]]]].
  - rewrite (image_load_conversion_result getContext drawImage toDataURL
               w i previewUrl fmt q width height Htask).
    rewrite (convertImage_try_encodes (mkImg previewUrl width height) fmt q
               painted Hctx Hdraw), Hencode.
    reflexivity.
  - apply Math_round_nearest.
  - apply Math_round_quarters.
  - apply header_length.
  - intros payload ->. apply own_header_of_requested_type.
  - intros -> ->. reflexivity.
Qed.


End EncoderFacts.


(** ** The extra properties at concrete inputs *)

Lemma converting_has_source_witness :
  isConverting (state Demo.converting) = true /\
  exists src,
    sourceImage (state Demo.converting) = Some src /\
    convertButton (render (state Demo.converting)) = Some true.
Proof.
  split; [reflexivity|].
  exact (converting_has_source Demo.getContext Demo.drawImage Demo.toDataURL
           (Demo.load_photo ++ [ClickConvert]) eq_refl).
Defined.

Lemma result_has_source_witness :
  result (state Demo.converted) = Some Demo.png_result /\
  exists src,
    sourceImage (state Demo.converted) = Some src /\
    downloadLink (render (state Demo.converted))
      = Some (ConversionResult.url Demo.png_result,
              download_name src Demo.png_result).
Proof.
  split; [reflexivity|].
  exact (result_has_source Demo.getContext Demo.drawImage Demo.toDataURL
           (Demo.load_photo ++ [ClickConvert; ImageLoad 0 100 50])
           Demo.png_result eq_refl eq_refl).
Defined.

Lemma flag_tracks_conversion_witness :
  isConverting (state Demo.converting) = true /\
  in_flight Demo.converting = 1%nat.
Proof.
  split; [reflexivity|].
  exact (proj1 (flag_tracks_conversion
                  Demo.getContext Demo.drawImage Demo.toDataURL
                  (Demo.load_photo ++ [ClickConvert]) eq_refl eq_refl)
               eq_refl).
Defined.

Lemma conversion_uses_settings_at_click_witness :
  let w' := Demo.run Demo.loaded
              [ClickConvert; ClickFormat JPEG; ChangeQuality (1 # 2);
               ImageLoad 0 100 50] in
  targetFormat (state w') = JPEG /\
  result (state w') = Some Demo.png_result /\
  ConversionResult.format Demo.png_result = PNG.
Proof.
  pose proof (conversion_uses_settings_at_click
                Demo.getContext Demo.drawImage Demo.toDataURL
                Demo.loaded Demo.photo_source JPEG (1 # 2) 100 50
                eq_refl eq_refl)
    as (Hselected & Hrecorded & Hformat).
  split; [exact Hselected|]. split; [exact Hrecorded|].
  exact (Hformat Demo.png_result eq_refl).
Defined.

Lemma failed_load_is_silent_witness :
  startsWith "image/" (File.type Demo.photo) = true /\
  alerts (Demo.run initial [Drop [Demo.photo]; ReaderError 0]) = [] /\
  sourceImage (state (Demo.run initial
                        [Drop [Demo.photo]; ReaderLoad 0 Demo.photo_url;
                         ImageError 0])) = None.
Proof.
  pose proof (failed_load_is_silent
                Demo.getContext Demo.drawImage Demo.toDataURL
                initial Demo.photo eq_refl eq_refl)
    as Hsilent.
  split; [reflexivity|]. split.
  - exact (proj1 (Hsilent [ReaderError 0] (or_introl eq_refl))).
  - exact (proj1 (proj2 (proj2
             (Hsilent [ReaderLoad 0 Demo.photo_url; ImageError 0]
                (or_intror (ex_intro _ Demo.photo_url eq_refl)))))).
Defined.

Lemma estimate_on_payload_witness :
  convertImage_try Demo.getContext Demo.drawImage Demo.toDataURL
    (mkImg Demo.photo_url 100 50) JPEG 1 = Normal Demo.jpeg_result /\
  length_of (ConversionResult.url Demo.jpeg_result)
    - length_of (data_url_header JPEG) = 4 * 25 /\
  ConversionResult.size Demo.jpeg_result = 3 * 25.
Proof.
  pose proof (estimate_on_payload
                Demo.getContext Demo.drawImage Demo.toDataURL
                (mkImg Demo.photo_url 100 50) JPEG 1 Demo.jpeg_result eq_refl)
    as (Hexact & _).
  split; [reflexivity|]. split; [reflexivity|].
  exact (Hexact 25 eq_refl).
Defined.

Lemma recorded_size_invariant_witness :
  result (state Demo.converted) = Some Demo.png_result /\
  ConversionResult.size Demo.png_result = estimatedSize 1000 22.
Proof.
  split; [reflexivity|].
  exact (recorded_size_invariant Demo.getContext Demo.drawImage Demo.toDataURL
           (Demo.load_photo ++ [ClickConvert; ImageLoad 0 100 50])
           Demo.png_result eq_refl).
Defined.

Lemma download_name_one_dot_witness :
  split "." (ImageState.name Demo.icon_source) = ["icon"; "webp"] /\
  download_name Demo.icon_source Demo.png_result = "converted-icon.png" /\
  download_name Demo.icon_source Demo.png_result
    = spec_download_name Demo.icon_source Demo.png_result.
Proof.
  split; [reflexivity|]. split; [reflexivity|].
  apply (download_name_one_dot Demo.icon_source Demo.png_result).
  simpl. lia.
Defined.

Lemma formatSize_below_kilobyte_witness : formatSize 734 = "734 Bytes".
Proof. apply (formatSize_below_kilobyte 734). lia. Defined.

Lemma formatSize_whole_units_witness :
  formatSize 2048 = "2 KB" /\ formatSize 2097152 = "2 MB".
Proof. apply (formatSize_whole_units 2). lia. Defined.

Lemma formatSize_unit_and_accuracy_witness :
  formatSize 2000 = "1.95 KB" /\
  exists (h : Z) (i : nat) (unit : string),
    sizes !! i = Some unit /\
    1024 ^ Z.of_nat i <= 2000 < 1024 ^ (Z.of_nat i + 1) /\
    formatSize 2000 = hundredths_to_string h +:+ " " +:+ unit /\
    100 <= h <= 102400 /\
    2 * h * 1024 ^ Z.of_nat i - 1024 ^ Z.of_nat i <= 200 * 2000
      < 2 * h * 1024 ^ Z.of_nat i + 1024 ^ Z.of_nat i.
Proof.
  split; [reflexivity|].
  apply (formatSize_unit_and_accuracy 2000). split; [lia|reflexivity].
Defined.

Lemma formatSize_rounds_up_to_1024_witness :
  formatSize 1048575 = "1024 KB" /\ formatSize 1073741823 = "1024 MB".
Proof.
  split.
  - apply (proj1 (formatSize_rounds_up_to_1024 1048575)). lia.
  - apply (proj2 (formatSize_rounds_up_to_1024 1073741823)). lia.
Defined.

Lemma formatSize_outside_units_witness :
  formatSize (-12) = "NaN undefined" /\
  exists h, 100 <= h <= 102400 /\
    formatSize 1610612736 = hundredths_to_string h +:+ " undefined".
Proof.
  split.
  - apply (proj1 (formatSize_outside_units (-12))). lia.
  - apply (proj2 (formatSize_outside_units 1610612736)).
    split; [discriminate|reflexivity].
Defined.


Lemma convert_records_estimated_size_witness :
  tasks Demo.converting !! 0%nat
    = Some (ConvertDecodeTask Demo.photo_url PNG (9 # 10)) /\
  Demo.toDataURL
    (mkCanvas 100 50 [(mkImg Demo.photo_url 100 50, 0, 0)]) "image/png" (9 # 10)
    = Normal (ConversionResult.url Demo.png_result) /\
  length_of (ConversionResult.url Demo.png_result) = 1000 /\
  own_header_length (ConversionResult.url Demo.png_result) = 22 /\
  result (state (Demo.step Demo.converting (ImageLoad 0 100 50)))
    = Some Demo.png_result /\
  ConversionResult.size Demo.png_result = 734.
Proof.
  pose proof (convert_records_estimated_size
                Demo.getContext Demo.drawImage Demo.toDataURL
                Demo.converting 0 Demo.photo_url PNG (9 # 10) 100 50
                (mkCanvas 100 50 [(mkImg Demo.photo_url 100 50, 0, 0)])
                (ConversionResult.url Demo.png_result)
                eq_refl eq_refl eq_refl eq_refl)
    as (Hresult & _ & _ & _ & Hown & Hexample).
  split; [reflexivity|]. split; [reflexivity|]. split; [reflexivity|].
  split; [exact (Hown (Demo.payload 978) eq_refl)|].
  split; [exact Hresult|]. exact (Hexample eq_refl eq_refl).
Defined.

(** C1 as stated fails where the encoder answers with another type than
    the one requested.  On a canvas that answers a WEBP request with the
    PNG data URL [data:image/png;base64,AAAA], whose own header has 22
    characters, the header subtracted is that of [image/webp], 23
    characters: the size recorded is round(3 * 3 / 4) = 2, where the
    URL's own header gives round(4 * 3 / 4) = 3. *)
Lemma webp_answered_with_png :
  let w := Fallback.run Demo.loaded
             [ClickFormat WEBP; ClickConvert; ImageLoad 0 100 50] in
  result (state w)
    = Some {| ConversionResult.url := "data:image/png;base64,AAAA";
              ConversionResult.format := WEBP;
              ConversionResult.size := 2 |} /\
  own_header_length "data:image/png;base64,AAAA" = 22 /\
  estimatedSize (length_of "data:image/png;base64,AAAA")
                (own_header_length "data:image/png;base64,AAAA") = 3 /\
  exists r,
    result (state w) = Some r /\
    ConversionResult.size r
      <> estimatedSize (length_of (ConversionResult.url r))
                       (own_header_length (ConversionResult.url r)).
Proof.
  split; [reflexivity|]. split; [reflexivity|]. split; [reflexivity|].
  eexists. split; [reflexivity|]. discriminate.
Qed.


